(** * Vocal Remover API: job orchestration and session lifecycle

    A shallow embedding of [src/main.py]: upload validation, the per-session
    workspace below [TEMP_DIR], the bounded run of the external separation
    engine, download resolution and cleanup.

    Conventions.
    - Python [str] is [string], a sequence of bytes; case mapping is that
      of ASCII, which is all the comparison with [.mp3] and [.wav] can
      see.  Uploaded bodies are [list byte].
    - A [pathlib.Path] below [TEMP_DIR] is the list of its components
      (POSIX flavour, [os.name != 'nt']).
    - The file system below [TEMP_DIR] is a tree whose directories are
      association lists in listing order, the order [iterdir] yields.
    - Handlers run in a state-and-exception monad over a [world]: the file
      tree, the table of child processes that were run, and the log.
    - What the program cannot decide itself (the generated uuid, what the
      child process does, faults of the disk, the encoding of the locale)
      comes from an [env] record. *)

From Stdlib Require Import ZArith List String Ascii Bool Lia.
From Stdlib Require Import Init.Byte DecimalString.
Import ListNotations.

Local Open Scope string_scope.
Local Open Scope Z_scope.

(* ================================================================= *)
(** ** Python strings *)

Module Str.

Definition is_upper (c : ascii) : bool :=
  (65 <=? nat_of_ascii c)%nat && (nat_of_ascii c <=? 90)%nat.

Definition is_lower (c : ascii) : bool :=
  (97 <=? nat_of_ascii c)%nat && (nat_of_ascii c <=? 122)%nat.

Definition lower_char (c : ascii) : ascii :=
  if is_upper c then ascii_of_nat (nat_of_ascii c + 32) else c.

Definition upper_char (c : ascii) : ascii :=
  if is_lower c then ascii_of_nat (nat_of_ascii c - 32) else c.

(** [s.lower()] *)
Fixpoint lower (s : string) : string :=
  match s with
  | EmptyString => EmptyString
  | String c r => String (lower_char c) (lower r)
  end.

(** [s.title()]: the first cased character of every run of cased characters
    is upper-cased, the others are lower-cased. *)
Fixpoint title_from (previous_is_cased : bool) (s : string) : string :=
  match s with
  | EmptyString => EmptyString
  | String c r =>
      let cased := is_upper c || is_lower c in
      String (if cased
              then (if previous_is_cased then lower_char c else upper_char c)
              else c)
             (title_from cased r)
  end.

Definition title (s : string) : string := title_from false s.

(** [sep.join(l)] *)
Fixpoint join (sep : string) (l : list string) : string :=
  match l with
  | [] => ""
  | x :: r => match r with [] => x | _ :: _ => x ++ sep ++ join sep r end
  end.

(** [s.rfind('.')], [None] for -1. *)
Fixpoint rfind_dot (s : string) : option nat :=
  match s with
  | EmptyString => None
  | String c r =>
      match rfind_dot r with
      | Some i => Some (S i)
      | None => if Ascii.eqb c "." then Some O else None
      end
  end.

(** [x in l] for a list (or set) of strings. *)
Definition mem (x : string) (l : list string) : bool :=
  existsb (String.eqb x) l.

(** The decimal rendering of an integer, as in an f-string. *)
Definition of_Z (z : Z) : string :=
  DecimalString.NilZero.string_of_int (Z.to_int z).

Definition hex_digit (n : nat) : ascii :=
  nth n ["0"; "1"; "2"; "3"; "4"; "5"; "6"; "7"; "8"; "9";
         "a"; "b"; "c"; "d"; "e"; "f"]%char "0"%char.

(** The two hexadecimal digits of a byte, as in [\xNN] and [0xNN]. *)
Definition hex2 (c : ascii) : string :=
  String (hex_digit (nat_of_ascii c / 16))
    (String (hex_digit (nat_of_ascii c mod 16)) EmptyString).

Definition apostrophe : ascii := ascii_of_nat 39.
Definition double_quote : ascii := ascii_of_nat 34.
Definition backslash : ascii := ascii_of_nat 92.

Fixpoint has_char (c : ascii) (s : string) : bool :=
  match s with
  | EmptyString => false
  | String d r => Ascii.eqb c d || has_char c r
  end.

(** The body of [repr(s)] between the quotes [q]: the quote and the
    backslash are escaped, tab, newline and carriage return have their
    letters and the other control characters of ASCII are written
    [\xNN].  Bytes outside ASCII stand for printable characters. *)
Fixpoint repr_body (q : ascii) (s : string) : string :=
  match s with
  | EmptyString => EmptyString
  | String c r =>
      let n := nat_of_ascii c in
      (if Ascii.eqb c q || Ascii.eqb c backslash
       then String backslash (String c EmptyString)
       else if (n =? 9)%nat then String backslash "t"
       else if (n =? 10)%nat then String backslash "n"
       else if (n =? 13)%nat then String backslash "r"
       else if (n <? 32)%nat || (n =? 127)%nat
            then String backslash ("x" ++ hex2 c)
       else String c EmptyString) ++ repr_body q r
  end.

(** [repr(s)]: double quotes when [s] has an apostrophe and no double
    quote, apostrophes otherwise. *)
Definition repr (s : string) : string :=
  let q := if has_char apostrophe s && negb (has_char double_quote s)
           then double_quote else apostrophe in
  String q (repr_body q s ++ String q EmptyString).

(** [repr(l)] for a list of strings. *)
Definition repr_list (l : list string) : string :=
  "[" ++ join ", " (map repr l) ++ "]".

Definition CR : ascii := ascii_of_nat 13.
Definition LF : ascii := ascii_of_nat 10.

(** [s.replace("\r\n", "\n").replace("\r", "\n")] *)
Fixpoint translate_newlines (s : string) : string :=
  match s with
  | EmptyString => EmptyString
  | String c r =>
      if Ascii.eqb c CR
      then String LF
             match r with
             | String d r' =>
                 if Ascii.eqb d LF
                 then translate_newlines r' else translate_newlines r
             | EmptyString => EmptyString
             end
      else String c (translate_newlines r)
  end.

End Str.

(* ================================================================= *)
(** ** pathlib *)

Module PathLib.

(** A path is kept as its components. *)
Definition Path : Type := list string.

(** The pieces of [s] between slashes. *)
Fixpoint split_slash (s : string) : list string :=
  match s with
  | EmptyString => [EmptyString]
  | String c r =>
      if Ascii.eqb c "/" then EmptyString :: split_slash r
      else match split_slash r with
           | h :: t => String c h :: t
           | [] => [String c EmptyString]
           end
  end.

(** Parsing drops empty pieces and single dots. *)
Definition is_component (c : string) : bool :=
  negb (String.eqb c "" || String.eqb c ".").

Definition parts (s : string) : Path := filter is_component (split_slash s).

(** [p / s].  Every right operand in this program starts with a literal
    that is not a slash or is the name of a directory entry, so the
    operand is never absolute. *)
Definition joinpath (p : Path) (s : string) : Path := (p ++ parts s)%list.

(** [p.name] *)
Definition name (p : Path) : string := last p "".

(** [p.parent] *)
Definition parent (p : Path) : Path := removelast p.

Definition has_suffix (nm : string) : option nat :=
  match Str.rfind_dot nm with
  | Some i =>
      if (0 <? i)%nat && (i <? String.length nm - 1)%nat then Some i else None
  | None => None
  end.

(** [p.suffix]: [name[i:]] when [0 < i < len(name) - 1] for
    [i = name.rfind('.')], and the empty string otherwise. *)
Definition suffix (p : Path) : string :=
  match has_suffix (name p) with
  | Some i => substring i (String.length (name p) - i) (name p)
  | None => ""
  end.

(** [p.stem] *)
Definition stem (p : Path) : string :=
  match has_suffix (name p) with
  | Some i => substring 0 i (name p)
  | None => name p
  end.

End PathLib.
Import PathLib.

Notation "p // s" := (joinpath p s) (at level 40, left associativity).

(** [TEMP_DIR = Path("/tmp")]: the root of the modelled tree. *)
Definition TEMP_DIR : Path := [].

(** [str(p)] for a path below [TEMP_DIR]. *)
Definition path_str (p : Path) : string :=
  "/tmp" ++ String.concat "" (map (fun c => "/" ++ c) p).

(** Constants of the service. *)
Definition MAX_FILE_SIZE : Z := 50 * 1024 * 1024.
Definition ALLOWED_EXTENSIONS : list string := [".mp3"; ".wav"].

(* ================================================================= *)
(** ** The file tree below [TEMP_DIR] *)

Module FS.

Local Set Warnings "-register-all".

Inductive node : Type :=
| File (content : list byte)
| Dir (entries : list (string * node)).

(** A directory is its entries in listing order. *)
Definition directory : Type := list (string * node).

Fixpoint assoc (x : string) (es : directory) : option node :=
  match es with
  | [] => None
  | (k, v) :: r => if String.eqb k x then Some v else assoc x r
  end.

(** The node a path names, if any. *)
Fixpoint get (p : Path) (es : directory) : option node :=
  match p with
  | [] => Some (Dir es)
  | x :: q =>
      match assoc x es with
      | Some (Dir sub) => get q sub
      | Some (File c) => match q with [] => Some (File c) | _ :: _ => None end
      | None => None
      end
  end.

Fixpoint update_first (x : string) (g : node -> node) (es : directory)
  : directory :=
  match es with
  | [] => []
  | (k, v) :: r =>
      if String.eqb k x then (k, g v) :: r else (k, v) :: update_first x g r
  end.

(** Apply [f] to the entries of the directory that [p] names. *)
Fixpoint alter (p : Path) (f : directory -> directory) (es : directory)
  : directory :=
  match p with
  | [] => f es
  | x :: q =>
      update_first x
        (fun v => match v with
                  | Dir sub => Dir (alter q f sub)
                  | File _ => v
                  end) es
  end.

Definition remove_entry (x : string) (es : directory) : directory :=
  filter (fun kv => negb (String.eqb (fst kv) x)) es.

Definition set_entry (x : string) (v : node) (es : directory) : directory :=
  match assoc x es with
  | Some _ => update_first x (fun _ => v) es
  | None => (es ++ [(x, v)])%list
  end.

(** Create or replace the node at [p]; its parent is a directory. *)
Definition put (p : Path) (v : node) (es : directory) : directory :=
  alter (parent p) (set_entry (name p) v) es.

(** Remove the node at [p], with all below it.  The root itself is not
    part of the tree: for the empty path the tree is emptied. *)
Definition remove (p : Path) (es : directory) : directory :=
  match p with
  | [] => []
  | _ :: _ => alter (parent p) (remove_entry (name p)) es
  end.

Definition exists_ (p : Path) (es : directory) : bool :=
  match get p es with Some _ => true | None => false end.

Definition is_dir (p : Path) (es : directory) : bool :=
  match get p es with Some (Dir _) => true | _ => false end.

End FS.
Import FS.

(* ================================================================= *)
(** ** Exceptions, the world, and the handler monad *)

Inductive exception : Type :=
| HTTPException (status_code : Z) (detail : string)
| TimeoutExpired (text : string)
| PyError (cls : string) (text : string).

Definition status_of (e : exception) : option Z :=
  match e with
  | HTTPException s _ => Some s
  | _ => None
  end.

Inductive result (A : Type) : Type :=
| Return (a : A)
| Raise (e : exception).
Arguments Return {A} a.
Arguments Raise {A} e.

Inductive level : Type := INFO | WARNING | ERROR.

(** How a child process ended: it exited by itself or it was killed. *)
Inductive proc_status : Type :=
| Exited (returncode : Z)
| Killed.

Record world : Type := mkWorld {
  fs : directory;
  procs : list (list string * proc_status);
  log : list (level * string)
}.

Definition with_fs (w : world) (d : directory) : world :=
  mkWorld d (procs w) (log w).

Definition M (A : Type) : Type := world -> result A * world.

Definition ret {A} (a : A) : M A := fun w => (Return a, w).

Definition raise {A} (e : exception) : M A := fun w => (Raise e, w).

Definition bind {A B} (m : M A) (k : A -> M B) : M B :=
  fun w =>
    match m w with
    | (Return a, w1) => k a w1
    | (Raise e, w1) => (Raise e, w1)
    end.

(** [try: m  except Exception as e: h e] *)
Definition try_except {A} (m : M A) (h : exception -> M A) : M A :=
  fun w =>
    match m w with
    | (Return a, w1) => (Return a, w1)
    | (Raise e, w1) => h e w1
    end.

(** [try: m  finally: c]: [c] runs on every exit; an exception of [c]
    replaces the outcome of [m]. *)
Definition try_finally {A} (m : M A) (c : M unit) : M A :=
  fun w =>
    match m w with
    | (r, w1) =>
        match c w1 with
        | (Return _, w2) => (r, w2)
        | (Raise e, w2) => (Raise e, w2)
        end
    end.

Declare Scope py_scope.
Delimit Scope py_scope with py.
Notation "x <- m ;; k" := (bind m (fun x => k))
  (at level 100, m at next level, right associativity) : py_scope.
Notation "m ;; k" := (bind m (fun _ => k))
  (at level 100, right associativity) : py_scope.
Local Open Scope py_scope.

Definition logger (l : level) (msg : string) : M unit :=
  fun w => (Return tt, mkWorld (fs w) (procs w) (log w ++ [(l, msg)])%list).

(* ================================================================= *)
(** ** The environment of one request *)

(** The child process a command line starts: how long it would run, how it
    would exit, the bytes it writes to its two output streams, and what it
    leaves beneath its output directory by the time it exits or is
    killed. *)
Record child : Type := mkChild {
  elapsed : Z;
  returncode : Z;
  stdout : string;
  stderr : string;
  writes : directory -> directory
}.

Inductive spawn : Type :=
| SpawnError (cls : string) (text : string)
| Spawned (c : child).

(** What [bytes.decode] gives under [errors='strict']: the text, or the
    [str] of the [UnicodeDecodeError]. *)
Inductive decoded : Type :=
| Text (s : string)
| Undecodable (message : string).

Record env : Type := mkEnv {
  (** [str(e)] of an [HTTPException], as the installed framework renders it *)
  http_str : Z -> string -> string;
  (** the order in which a set of strings is iterated in this process *)
  iteration_order : list string -> list string;
  (** [str(uuid.uuid4())] *)
  uuid4 : string;
  (** what [Popen(cmd)] gives *)
  spleeter : list string -> spawn;
  (** writing the body fails: at [open] ([None]) or after that many bytes *)
  write_fault : option (string * string * option nat);
  (** [unlink] of a regular file fails *)
  unlink_fault : option (string * string);
  (** [rmtree] of a directory fails, leaving these entries in it *)
  rmtree_fault : option (string * string * directory);
  (** decoding captured output in the locale's encoding, which is what
      [text=True] asks of [subprocess.run] *)
  decode : string -> decoded
}.

Record CompletedProcess : Type := mkCompleted {
  cp_returncode : Z;
  cp_stdout : string;
  cp_stderr : string
}.

(** What the handlers return. *)
Inductive response : Type :=
| Separated (session_id vocals_file instrumental_file : string)
            (original_filename : option string) (message : string)
| FileResponse (path filename media_type : string)
| Message (message : string).

(** [UploadFile]: the declared name, the declared size when the client sent
    one, and the body. *)
Record UploadFile : Type := mkUpload {
  filename : option string;
  size : option Z;
  body : list byte
}.

(* ================================================================= *)
(** ** The library calls the handlers make *)

Definition errno_text (what : string) (p : Path) : string :=
  what ++ ": '" ++ path_str p ++ "'".

(** The same for an error [shutil.rmtree] meets while it lists what it was
    given: that one names the [Path] object. *)
Definition errno_repr (what : string) (p : Path) : string :=
  what ++ ": PosixPath('" ++ path_str p ++ "')".

(** [p.exists()], for a path whose names the system accepts: the answer
    is that of the tree.  (A name longer than [NAME_MAX] is refused by
    [stat] with [ENAMETOOLONG], and [exists] raises that error.) *)
Definition path_exists (p : Path) : M bool :=
  fun w => (Return (exists_ p (fs w)), w).

(** [p.mkdir(exist_ok=True)]: an existing directory is accepted, an
    existing file is not, and the parent has to be there. *)
Definition mkdir_exist_ok (p : Path) : M unit :=
  fun w =>
    match get p (fs w) with
    | Some (Dir _) => (Return tt, w)
    | Some (File _) =>
        (Raise (PyError "FileExistsError" (errno_text "[Errno 17] File exists" p)), w)
    | None =>
        if is_dir (parent p) (fs w)
        then (Return tt, with_fs w (put p (Dir []) (fs w)))
        else (Raise (PyError "FileNotFoundError"
                       (errno_text "[Errno 2] No such file or directory" p)), w)
    end.

(** [with open(p, "wb") as f: f.write(content)] *)
Definition write_bytes (E : env) (p : Path) (content : list byte) : M unit :=
  fun w =>
    match get p (fs w) with
    | Some (Dir _) =>
        (Raise (PyError "IsADirectoryError"
                  (errno_text "[Errno 21] Is a directory" p)), w)
    | _ =>
        if is_dir (parent p) (fs w)
        then match write_fault E with
             | Some (cls, text, None) => (Raise (PyError cls text), w)
             | Some (cls, text, Some n) =>
                 (Raise (PyError cls text),
                  with_fs w (put p (File (firstn n content)) (fs w)))
             | None => (Return tt, with_fs w (put p (File content) (fs w)))
             end
        else (Raise (PyError "FileNotFoundError"
                       (errno_text "[Errno 2] No such file or directory" p)), w)
    end.

(** [p.unlink()] *)
Definition unlink (E : env) (p : Path) : M unit :=
  fun w =>
    match get p (fs w) with
    | Some (File _) =>
        match unlink_fault E with
        | Some (cls, text) => (Raise (PyError cls text), w)
        | None => (Return tt, with_fs w (remove p (fs w)))
        end
    | Some (Dir _) =>
        (Raise (PyError "IsADirectoryError"
                  (errno_text "[Errno 21] Is a directory" p)), w)
    | None =>
        (Raise (PyError "FileNotFoundError"
                  (errno_text "[Errno 2] No such file or directory" p)), w)
    end.

(** [list(p.iterdir())]: the children in listing order. *)
Definition iterdir (p : Path) : M (list Path) :=
  fun w =>
    match get p (fs w) with
    | Some (Dir es) => (Return (map (fun kv => (p ++ [fst kv])%list) es), w)
    | Some (File _) =>
        (Raise (PyError "NotADirectoryError"
                  (errno_text "[Errno 20] Not a directory" p)), w)
    | None =>
        (Raise (PyError "FileNotFoundError"
                  (errno_text "[Errno 2] No such file or directory" p)), w)
    end.

(** [shutil.rmtree(p)] *)
Definition rmtree (E : env) (p : Path) : M unit :=
  fun w =>
    match get p (fs w) with
    | Some (Dir _) =>
        match rmtree_fault E with
        | Some (cls, text, remains) =>
            (Raise (PyError cls text), with_fs w (alter p (fun _ => remains) (fs w)))
        | None => (Return tt, with_fs w (remove p (fs w)))
        end
    | Some (File _) =>
        (Raise (PyError "NotADirectoryError"
                  (errno_repr "[Errno 20] Not a directory" p)), w)
    | None =>
        (Raise (PyError "FileNotFoundError"
                  (errno_text "[Errno 2] No such file or directory" p)), w)
    end.

(** The captured output of a child as text: [stdout] is decoded first,
    then [stderr], and line ends are translated; the first that does not
    decode gives the message of the [UnicodeDecodeError]. *)
Definition captured (E : env) (c : child) : string * string + string :=
  match decode E (stdout c) with
  | Undecodable message => inr message
  | Text out =>
      match decode E (stderr c) with
      | Undecodable message => inr message
      | Text err =>
          inl (Str.translate_newlines out, Str.translate_newlines err)
      end
  end.

(** [subprocess.run(cmd, capture_output=True, text=True, timeout=t)] for a
    command that writes beneath [out].  The call blocks until the child has
    exited; a child still running after [t] seconds is killed and waited
    for, and [TimeoutExpired] is raised.  The output of a child that exited
    in time is decoded after it has exited, and output that does not decode
    raises [UnicodeDecodeError] in place of a result. *)
Definition subprocess_run (E : env) (cmd : list string) (t : Z) (out : Path)
  : M CompletedProcess :=
  fun w =>
    match spleeter E cmd with
    | SpawnError cls text => (Raise (PyError cls text), w)
    | Spawned c =>
        let d := alter out (writes c) (fs w) in
        if t <? elapsed c
        then (Raise (TimeoutExpired
                       ("Command '" ++ Str.repr_list cmd ++ "' timed out after "
                          ++ Str.of_Z t ++ " seconds")),
              mkWorld d (procs w ++ [(cmd, Killed)])%list (log w))
        else
          let w1 :=
            mkWorld d (procs w ++ [(cmd, Exited (returncode c))])%list (log w) in
          match captured E c with
          | inr message => (Raise (PyError "UnicodeDecodeError" message), w1)
          | inl (out, err) => (Return (mkCompleted (returncode c) out err), w1)
          end
    end.

(** [str(e)] *)
Definition str (E : env) (e : exception) : string :=
  match e with
  | HTTPException s d => http_str E s d
  | TimeoutExpired text => text
  | PyError _ text => text
  end.

(** [x or d] for an optional string. *)
Definition or_else (x : option string) (d : string) : string :=
  match x with
  | Some s => if String.eqb s "" then d else s
  | None => d
  end.

(** [f"{x}"] for an optional string. *)
Definition fmt_opt (x : option string) : string :=
  match x with
  | Some s => s
  | None => "None"
  end.

(* ================================================================= *)
(** ** The handlers of [main.py] *)

Definition unsupported_format (E : env) : exception :=
  HTTPException 400
    ("Unsupported file format. Allowed formats: "
       ++ Str.join ", " (iteration_order E ALLOWED_EXTENSIONS)).

Definition file_too_large : exception :=
  HTTPException 400
    ("File too large. Maximum size: "
       ++ Str.of_Z (MAX_FILE_SIZE / (1024 * 1024)) ++ "MB").

(** The extension the validator looks at:
    [Path(file.filename or "").suffix.lower()]. *)
Definition validated_ext (file : UploadFile) : string :=
  Str.lower (suffix (parts (or_else (filename file) ""))).

(** [hasattr(file, 'size') and file.size and file.size > MAX_FILE_SIZE] *)
Definition declared_too_large (file : UploadFile) : bool :=
  match size file with
  | Some n => negb (n =? 0) && (MAX_FILE_SIZE <? n)
  | None => false
  end.

Definition validate_audio_file (E : env) (file : UploadFile) : M unit :=
  let file_ext := validated_ext file in
  (if negb (Str.mem file_ext ALLOWED_EXTENSIONS)
   then raise (unsupported_format E) else ret tt) ;;
  (if declared_too_large file then raise file_too_large else ret tt).

Definition spleeter_cmd (input_file output_dir : Path) : list string :=
  ["spleeter"; "separate"; "-p"; "spleeter:2stems-16kHz";
   "-o"; path_str output_dir; path_str input_file].

Definition output_not_found : exception :=
  HTTPException 500 "Separation completed but output files not found".

Definition processing_timeout : exception :=
  HTTPException 408 "Processing timeout. Please try with a shorter audio file.".

(** Where the engine is expected to leave the two stems. *)
Definition vocals_path (input_file output_dir : Path) : Path :=
  output_dir // stem input_file // "vocals.wav".

Definition accompaniment_path (input_file output_dir : Path) : Path :=
  output_dir // stem input_file // "accompaniment.wav".

(** The body of the [try] of [run_spleeter_separation]. *)
Definition run_spleeter_body (E : env) (input_file output_dir : Path)
  : M (Path * Path) :=
  let cmd := spleeter_cmd input_file output_dir in
  logger INFO ("Running Spleeter command: " ++ Str.join " " cmd) ;;
  result <- subprocess_run E cmd 300 output_dir ;;
  (if negb (cp_returncode result =? 0)
   then (logger ERROR ("Spleeter failed: " ++ cp_stderr result) ;;
         raise (HTTPException 500
                  ("Audio separation failed: " ++ cp_stderr result)))
   else ret tt) ;;
  let vocals_file := vocals_path input_file output_dir in
  let accompaniment_file := accompaniment_path input_file output_dir in
  v <- path_exists vocals_file ;;
  a <- path_exists accompaniment_file ;;
  if negb v || negb a
  then raise output_not_found
  else ret (vocals_file, accompaniment_file).

(** The two [except] clauses of [run_spleeter_separation], in order:
    [subprocess.TimeoutExpired], then [Exception], which an
    [HTTPException] raised in the body is an instance of. *)
Definition run_spleeter_handler (E : env) (e : exception) : M (Path * Path) :=
  match e with
  | TimeoutExpired _ => raise processing_timeout
  | _ =>
      logger ERROR ("Spleeter separation error: " ++ str E e) ;;
      raise (HTTPException 500 ("Audio separation failed: " ++ str E e))
  end.

(** Returns [(vocals, instrumental)], the two values of the dict. *)
Definition run_spleeter_separation (E : env) (input_file output_dir : Path)
  : M (Path * Path) :=
  try_except (run_spleeter_body E input_file output_dir)
             (run_spleeter_handler E).

Definition session_dir (session_id : string) : Path :=
  TEMP_DIR // ("vocal_remover_" ++ session_id).

(** [session_temp_dir / f"input{file_ext}"] with
    [file_ext = Path(file.filename or "audio.mp3").suffix]. *)
Definition input_path (session_id : string) (file : UploadFile) : Path :=
  session_dir session_id
    // ("input" ++ suffix (parts (or_else (filename file) "audio.mp3"))).

(** The body of the [try] of [separate_audio]. *)
Definition separate_body (E : env) (file : UploadFile) : M response :=
  let session_id := uuid4 E in
  let input_file := input_path session_id file in
  let content := body file in
  (if MAX_FILE_SIZE <? Z.of_nat (List.length content)
   then raise file_too_large else ret tt) ;;
  write_bytes E input_file content ;;
  logger INFO ("Processing file: " ++ fmt_opt (filename file)
                 ++ " (Session: " ++ session_id ++ ")") ;;
  _ <- run_spleeter_separation E input_file (session_dir session_id) ;;
  ret (Separated session_id
         ("/download/" ++ session_id ++ "/vocals")
         ("/download/" ++ session_id ++ "/instrumental")
         (filename file)
         "Separation completed successfully").

(** [except HTTPException: raise] and then [except Exception as e]. *)
Definition separate_handler (E : env) (e : exception) : M response :=
  match e with
  | HTTPException _ _ => raise e
  | _ =>
      logger ERROR ("Unexpected error during separation: " ++ str E e) ;;
      raise (HTTPException 500 ("An unexpected error occurred: " ++ str E e))
  end.

(** The [finally] clause.  [input_file] is assigned by the first two
    statements of the [try], which cannot raise, so it is never [None]
    here. *)
Definition separate_finally (E : env) (input_file : Path) : M unit :=
  ex <- path_exists input_file ;;
  if ex
  then try_except (unlink E input_file)
         (fun e => logger WARNING
                     ("Failed to clean up input file: " ++ str E e))
  else ret tt.

Definition separate_audio (E : env) (file : UploadFile) : M response :=
  validate_audio_file E file ;;
  let session_id := uuid4 E in
  mkdir_exist_ok (session_dir session_id) ;;
  try_finally
    (try_except (separate_body E file) (separate_handler E))
    (separate_finally E (input_path session_id file)).

(** [[d for d in children if d.is_dir()]] *)
Definition only_dirs (children : list Path) : M (list Path) :=
  fun w => (Return (filter (fun d => is_dir d (fs w)) children), w).

Definition download_track (session_id track_type : string) : M response :=
  if negb (Str.mem track_type ["vocals"; "instrumental"])
  then raise (HTTPException 400 "Invalid track type")
  else
    let session_temp_dir := session_dir session_id in
    ex <- path_exists session_temp_dir ;;
    if negb ex
    then raise (HTTPException 404 "Session not found or expired")
    else
      children <- iterdir session_temp_dir ;;
      output_dirs <- only_dirs children ;;
      match output_dirs with
      | [] => raise (HTTPException 404 "Processed files not found")
      | output_dir :: _ =>
          let '(file_path, filename) :=
            if String.eqb track_type "vocals"
            then (output_dir // "vocals.wav", "vocals.wav")
            else (output_dir // "accompaniment.wav", "instrumental.wav") in
          found <- path_exists file_path ;;
          if negb found
          then raise (HTTPException 404
                        (Str.title track_type ++ " file not found"))
          else ret (FileResponse (path_str file_path) filename "audio/wav")
      end.

Definition cleanup_session (E : env) (session_id : string) : M response :=
  let session_temp_dir := session_dir session_id in
  ex <- path_exists session_temp_dir ;;
  if ex
  then try_except
         (rmtree E session_temp_dir ;;
          ret (Message "Session cleaned up successfully"))
         (fun e =>
            logger ERROR ("Failed to clean up session " ++ session_id
                            ++ ": " ++ str E e) ;;
            raise (HTTPException 500 "Cleanup failed"))
  else ret (Message "Session not found or already cleaned up").

(* ================================================================= *)
(** ** The health endpoints of [main.py] *)

(** [root]: the message and the status. *)
Definition root : M (string * string) :=
  ret ("Vocal Remover API is running", "healthy").

(** [check_spleeter_installation].  [spleeter --help] names no output
    directory: what the child does, it does to the tree as a whole.  The
    [except] clause names [TimeoutExpired] and [FileNotFoundError] and
    nothing else. *)
Definition check_spleeter_installation (E : env) : M bool :=
  try_except
    (result <- subprocess_run E ["spleeter"; "--help"] 10 TEMP_DIR ;;
     ret (cp_returncode result =? 0))
    (fun e =>
       match e with
       | TimeoutExpired _ => ret false
       | PyError cls _ =>
           if String.eqb cls "FileNotFoundError" then ret false else raise e
       | HTTPException _ _ => raise e
       end).

(** The dict [health_check] returns. *)
Record Health : Type := mkHealth {
  health_status : string;
  spleeter_available : bool;
  temp_dir : string;
  max_file_size_mb : Z
}.

Definition health_check (E : env) : M Health :=
  available <- check_spleeter_installation E ;;
  ret (mkHealth "healthy" available (path_str TEMP_DIR)
         (MAX_FILE_SIZE / (1024 * 1024))).

(* ================================================================= *)
(** ** Derived notions used in the statements *)

Definition logged (w : world) (l : level) (msg : string) : world :=
  mkWorld (fs w) (procs w) (log w ++ [(l, msg)])%list.

(** The world in which the engine has run. *)
Definition ran (w : world) (out : Path) (c : child) (cmd : list string)
  (st : proc_status) : world :=
  mkWorld (alter out (writes c) (fs w)) (procs w ++ [(cmd, st)])%list (log w).

Definition wrapped (E : env) (e : exception) : exception :=
  HTTPException 500 ("Audio separation failed: " ++ str E e).

(** [d'] comes from [d] by changes at or below the directory [p]. *)
Inductive touched_below (p : Path) (d : directory) : directory -> Prop :=
| touched_none : touched_below p d d
| touched_step d' q f :
    touched_below p d d' -> touched_below p d (alter (p ++ q)%list f d').

(** The request passed validation and its workspace directory is there:
    the [try] block of [separate_audio] is entered.  Every request that
    gets as far as saving its input has. *)
Definition workspace_ready (E : env) (file : UploadFile) (w : world) : Prop :=
  fst (validate_audio_file E file w) = Return tt
  /\ fst (mkdir_exist_ok (session_dir (uuid4 E)) w) = Return tt.

(** [len(content) > MAX_FILE_SIZE] *)
Definition too_large (file : UploadFile) : bool :=
  MAX_FILE_SIZE <? Z.of_nat (List.length (body file)).

(** The response of a successful upload. *)
Definition separated (E : env) (file : UploadFile) : response :=
  Separated (uuid4 E)
    ("/download/" ++ uuid4 E ++ "/vocals")
    ("/download/" ++ uuid4 E ++ "/instrumental")
    (filename file)
    "Separation completed successfully".

(** The [try] with its [except] clauses. *)
Definition guarded (E : env) (file : UploadFile) : M response :=
  try_except (separate_body E file) (separate_handler E).

(** The listing of the workspace, filtered as [download_track] does. *)
Definition output_dirs (session_id : string) (es : directory) (w : world)
  : list Path :=
  filter (fun d => is_dir d (fs w))
         (map (fun kv => (session_dir session_id ++ [fst kv])%list) es).

Definition stem_file (track_type : string) : string :=
  if String.eqb track_type "vocals" then "vocals.wav" else "accompaniment.wav".

Definition download_name (track_type : string) : string :=
  if String.eqb track_type "vocals" then "vocals.wav" else "instrumental.wav".

(** The outcomes of [cleanup_session]. *)
Definition Removed : result response :=
  Return (Message "Session cleaned up successfully").

Definition AlreadyAbsent : result response :=
  Return (Message "Session not found or already cleaned up").

Definition DeleteError : result response :=
  Raise (HTTPException 500 "Cleanup failed").

(** The status code of a failure, if it is an HTTP error. *)
Definition failure_status {A} (r : result A) : option Z :=
  match r with
  | Return _ => None
  | Raise e => status_of e
  end.

(** The same environment with another fate for [unlink]. *)
Definition with_unlink_fault (E : env) (fault : option (string * string)) : env :=
  mkEnv (http_str E) (iteration_order E) (uuid4 E) (spleeter E)
        (write_fault E) fault (rmtree_fault E) (decode E).


(** No slash in it: all a path parameter of a route can hold. *)
Fixpoint slash_free (s : string) : bool :=
  match s with
  | EmptyString => true
  | String c r => negb (Ascii.eqb c "/") && slash_free r
  end.

(** The longest name of a directory entry, in bytes. *)
Definition NAME_MAX : nat := 255.

(** A session id whose workspace the system looks up by name: the id is one
    path component, as the path parameter of a route is, and
    [vocal_remover_<id>] is no longer than [NAME_MAX].  For a longer name
    [stat] fails with [ENAMETOOLONG], which [Path.exists] does not take
    for an answer but raises as [OSError]: such ids are outside what
    [path_exists] describes. *)
Definition name_fits (session_id : string) : bool :=
  slash_free session_id
  && (String.length ("vocal_remover_" ++ session_id) <=? NAME_MAX)%nat.

(** The subdirectory [download_track] looks into, if there is one. *)
Definition first_output_dir (session_id : string) (w : world) : option Path :=
  match get (session_dir session_id) (fs w) with
  | Some (Dir es) => hd_error (output_dirs session_id es w)
  | _ => None
  end.

(** The upload with its filename in lower case. *)
Definition lower_named (file : UploadFile) : UploadFile :=
  mkUpload (option_map Str.lower (filename file)) (size file) (body file).

(* ================================================================= *)
(** ** Sample data *)

Module Sample.

(** The rendering of current Starlette: [f"{status_code}: {detail}"]. *)
Definition status_colon_detail (s : Z) (d : string) : string :=
  Str.of_Z s ++ ": " ++ d.

Definition stems : node :=
  Dir [("vocals.wav", File [x52; x49]); ("accompaniment.wav", File [x46; x46])].

(** An engine that follows its contract: [<out>/input/{vocals,accompaniment}.wav]. *)
Definition good_child : child :=
  mkChild 42 0 "" "" (set_entry "input" stems).

(** An engine that exits cleanly but leaves only the vocals. *)
Definition half_child : child :=
  mkChild 42 0 "" "" (set_entry "input" (Dir [("vocals.wav", File [x52])])).

(** An engine that fails on its input. *)
Definition failing_child : child :=
  mkChild 3 1 "" "ffprobe error" (fun es => es).

(** An engine that does all it should, and writes a byte to stderr that is
    no text. *)
Definition garbled_child : child :=
  mkChild 3 0 "" (String (ascii_of_nat 255) EmptyString)
          (set_entry "input" stems).

(** An engine that never finishes in time. *)
Definition slow_child : child :=
  mkChild 301 0 "" "" (fun es => es).

Definition sid : string := "0b9edc7e-5c44-4f0e-9d0a-2f6f3f1a7c11".

(** A process whose locale encoding is ASCII: bytes below 128 decode to
    themselves and the first other byte is refused. *)
Fixpoint ascii_decode_from (i : nat) (s : string) : option string :=
  match s with
  | EmptyString => None
  | String c r =>
      if (nat_of_ascii c <? 128)%nat then ascii_decode_from (S i) r
      else Some ("'ascii' codec can't decode byte 0x" ++ Str.hex2 c
                   ++ " in position " ++ Str.of_Z (Z.of_nat i)
                   ++ ": ordinal not in range(128)")
  end.

Definition ascii_decode (s : string) : decoded :=
  match ascii_decode_from 0 s with
  | Some message => Undecodable message
  | None => Text s
  end.

Definition env_of (c : child) : env :=
  mkEnv status_colon_detail (fun l => l) sid (fun _ => Spawned c)
        None None None ascii_decode.

Definition good_env : env := env_of good_child.

(** The same with the rendering of older Starlette, whose [HTTPException]
    built from keywords has no arguments: [str(e)] is empty. *)
Definition old_env_of (c : child) : env :=
  mkEnv (fun _ _ => "") (fun l => l) sid (fun _ => Spawned c)
        None None None ascii_decode.

(** The same environment, except that removing a file fails. *)
Definition sticky (E : env) : env :=
  with_unlink_fault E (Some ("PermissionError", "[Errno 13] Permission denied")).

Definition empty_world : world := mkWorld [] [] [].

Definition song : UploadFile := mkUpload (Some "song.mp3") (Some 3) [x01; x02; x03].

Definition ogg : UploadFile := mkUpload (Some "song.ogg") None [x01].

(** A workspace in which two directories hold stems. *)
Definition two_dirs : directory :=
  [("a", Dir [("vocals.wav", File [x01])]);
   ("b", Dir [("vocals.wav", File [x02])])].

Definition two_outputs : world :=
  mkWorld [("vocal_remover_s1", Dir two_dirs)] [] [].

(** The world in which the input of [song] has been saved. *)
Definition saved_world : world :=
  mkWorld [("vocal_remover_" ++ sid, Dir [("input.mp3", File [x01; x02; x03])])]
          [] [].

(** The path of the workspace is taken by a regular file. *)
Definition occupied_world : world :=
  mkWorld [("vocal_remover_" ++ sid, File [])] [] [].

(** No engine is installed. *)
Definition no_engine_env : env :=
  mkEnv status_colon_detail (fun l => l) sid
        (fun _ => SpawnError "FileNotFoundError"
                    "[Errno 2] No such file or directory: 'spleeter'")
        None None None ascii_decode.

(** The delete of a workspace fails half way. *)
Definition stuck_env : env :=
  mkEnv status_colon_detail (fun l => l) sid (fun _ => Spawned good_child)
        None None
        (Some ("PermissionError", "[Errno 13] Permission denied",
               [("input.mp3", File [x01; x02; x03])]))
        ascii_decode.

(** The disk is full: the input cannot be created.  The rendering of
    [HTTPException] plays no part here. *)
Definition full_disk_env : env :=
  mkEnv (fun _ _ => "") (fun l => l) sid (fun _ => Spawned good_child)
        (Some ("OSError",
               "[Errno 28] No space left on device: '/tmp/vocal_remover_"
                 ++ sid ++ "/input.mp3'", None))
        None None ascii_decode.


(** A body of [n] zero bytes. *)
Definition zeros (n : Z) : list byte := repeat x00 (Z.to_nat n).

(** An engine is installed, but may not be run. *)
Definition forbidden_env : env :=
  mkEnv status_colon_detail (fun l => l) sid
        (fun _ => SpawnError "PermissionError"
                    "[Errno 13] Permission denied: 'spleeter'")
        None None None ascii_decode.

(** An upload that declares more than it carries. *)
Definition overstated : UploadFile :=
  mkUpload (Some "song.mp3") (Some (MAX_FILE_SIZE + 1)) [x01; x02; x03].


(** Another session beside it. *)
Definition two_sessions : world :=
  mkWorld [("vocal_remover_other", Dir [("input", stems)]);
           ("vocal_remover_" ++ sid, Dir [("input", stems)])] [] [].

End Sample.

(* ================================================================= *)
(** ** Facts about paths *)

Section PathFacts.

Lemma parts_head (c : ascii) (r : string) :
  c <> "/"%char -> c <> "."%char ->
  exists h t, parts (String c r) = String c h :: t.
Proof.
  intros Hs Hd. unfold parts. simpl.
  destruct (Ascii.eqb c "/") eqn:E1.
  - apply Ascii.eqb_eq in E1. contradiction.
  - assert (Hc : forall h, is_component (String c h) = true).
    { intro h. unfold is_component. simpl.
      destruct (Ascii.eqb c ".") eqn:E2.
      - apply Ascii.eqb_eq in E2. contradiction.
      - reflexivity. }
    destruct (split_slash r) as [|h t]; simpl; rewrite Hc; eauto.
Qed.

Lemma session_dir_cons (session_id : string) :
  exists x q, session_dir session_id = x :: q.
Proof.
  unfold session_dir, joinpath, TEMP_DIR.
  change ("vocal_remover_" ++ session_id)
    with (String "v" ("ocal_remover_" ++ session_id)).
  destruct (parts_head "v" ("ocal_remover_" ++ session_id)) as (h & t & H);
    try discriminate.
  rewrite H. simpl. eauto.
Qed.

Lemma input_path_below (session_id : string) (file : UploadFile) :
  exists x q,
    input_path session_id file = (session_dir session_id ++ x :: q)%list.
Proof.
  unfold input_path, joinpath.
  set (ext := suffix _).
  change ("input" ++ ext) with (String "i" ("nput" ++ ext)).
  destruct (parts_head "i" ("nput" ++ ext)) as (h & t & H); try discriminate.
  rewrite H. eauto.
Qed.

Lemma parent_app (p : Path) (x : string) (q : Path) :
  parent (p ++ x :: q)%list = (p ++ parent (x :: q))%list.
Proof. unfold parent. apply removelast_app. discriminate. Qed.

Lemma name_app (p : Path) (x : string) (q : Path) :
  name (p ++ x :: q)%list = name (x :: q).
Proof.
  unfold name. induction p as [|y p IH]; [reflexivity|].
  simpl app. rewrite <- IH. simpl. destruct (p ++ x :: q)%list eqn:E.
  - destruct p; discriminate.
  - reflexivity.
Qed.

End PathFacts.

(* ================================================================= *)
(** ** Facts about the file tree *)

Section TreeFacts.

Lemma assoc_update_first_same x g es :
  assoc x (update_first x g es) = option_map g (assoc x es).
Proof.
  induction es as [|[k v] r IH]; simpl; [reflexivity|].
  destruct (String.eqb k x) eqn:E; simpl; rewrite E; auto.
Qed.

Lemma assoc_update_first_other x y g es :
  x <> y -> assoc y (update_first x g es) = assoc y es.
Proof.
  intro N. induction es as [|[k v] r IH]; simpl; [reflexivity|].
  destruct (String.eqb k x) eqn:E; simpl.
  - apply String.eqb_eq in E. subst k.
    destruct (String.eqb x y) eqn:E'; [apply String.eqb_eq in E'; contradiction|].
    reflexivity.
  - destruct (String.eqb k y); auto.
Qed.

Lemma assoc_remove_entry_same x es : assoc x (remove_entry x es) = None.
Proof.
  induction es as [|[k v] r IH]; simpl; [reflexivity|].
  destruct (String.eqb k x) eqn:E; simpl; [assumption|].
  rewrite E. assumption.
Qed.

Lemma assoc_remove_entry_other x y es :
  x <> y -> assoc y (remove_entry x es) = assoc y es.
Proof.
  intro N. induction es as [|[k v] r IH]; simpl; [reflexivity|].
  destruct (String.eqb k x) eqn:E; simpl.
  - apply String.eqb_eq in E. subst k.
    destruct (String.eqb x y) eqn:E'; [apply String.eqb_eq in E'; contradiction|].
    assumption.
  - destruct (String.eqb k y); auto.
Qed.

Lemma assoc_app_none x es v :
  assoc x es = None -> assoc x (es ++ [(x, v)])%list = Some v.
Proof.
  induction es as [|[k u] r IH]; simpl.
  - rewrite String.eqb_refl. reflexivity.
  - destruct (String.eqb k x); [discriminate|assumption].
Qed.

Lemma assoc_app_other x y es v :
  x <> y -> assoc y (es ++ [(x, v)])%list = assoc y es.
Proof.
  intro N. induction es as [|[k u] r IH]; simpl.
  - destruct (String.eqb x y) eqn:E; [apply String.eqb_eq in E; contradiction|].
    reflexivity.
  - destruct (String.eqb k y); auto.
Qed.

Lemma assoc_set_entry_same x v es : assoc x (set_entry x v es) = Some v.
Proof.
  unfold set_entry. destruct (assoc x es) eqn:E.
  - rewrite assoc_update_first_same, E. reflexivity.
  - apply assoc_app_none. assumption.
Qed.

Lemma assoc_set_entry_other x y v es :
  x <> y -> assoc y (set_entry x v es) = assoc y es.
Proof.
  intro N. unfold set_entry. destruct (assoc x es).
  - apply assoc_update_first_other. assumption.
  - apply assoc_app_other. assumption.
Qed.

(** Changing something at or below a directory keeps it a directory. *)
Lemma is_dir_alter_below p q f es :
  is_dir p es = true -> is_dir p (alter (p ++ q)%list f es) = true.
Proof.
  revert es. induction p as [|x p IH]; intros es H.
  - reflexivity.
  - unfold is_dir in *. simpl in *.
    rewrite assoc_update_first_same.
    destruct (assoc x es) as [[c|sub]|]; simpl.
    + destruct p; [discriminate|discriminate].
    + apply IH. assumption.
    + discriminate.
Qed.

(** Changing the tree at a path leaves the other entries of the root. *)
Lemma assoc_alter_other x q y f es :
  x <> y -> assoc y (alter (x :: q) f es) = assoc y es.
Proof. intro N. simpl. apply assoc_update_first_other. assumption. Qed.

(** What has been removed is not there. *)
Lemma get_remove x q es : get (x :: q) (remove (x :: q) es) = None.
Proof.
  revert x es. induction q as [|y q IH]; intros x es.
  - simpl. rewrite assoc_remove_entry_same. reflexivity.
  - unfold remove. change (parent (x :: y :: q)) with (x :: parent (y :: q)).
    change (name (x :: y :: q)) with (name (y :: q)).
    change (get (x :: y :: q) ?d)
      with (match assoc x d with
            | Some (Dir sub) => get (y :: q) sub
            | Some (File c) => None
            | None => None
            end).
    change (alter (x :: ?p) ?f es)
      with (update_first x
              (fun v => match v with
                        | Dir sub => Dir (alter p f sub)
                        | File _ => v
                        end) es).
    rewrite assoc_update_first_same.
    destruct (assoc x es) as [[c|sub]|]; simpl; try reflexivity.
    apply (IH y sub).
Qed.

(** A node put below an existing directory is there. *)
Lemma get_put x q v es :
  is_dir (parent (x :: q)) es = true -> get (x :: q) (put (x :: q) v es) = Some v.
Proof.
  revert x es. induction q as [|y q IH]; intros x es H.
  - unfold put. simpl. rewrite assoc_set_entry_same.
    destruct v; reflexivity.
  - unfold put. change (parent (x :: y :: q)) with (x :: parent (y :: q)) in *.
    change (name (x :: y :: q)) with (name (y :: q)).
    set (P := parent (y :: q)) in *. set (f := set_entry _ _).
    assert (D : exists sub, assoc x es = Some (Dir sub) /\ is_dir P sub = true).
    { unfold is_dir in H. cbn [get] in H.
      destruct (assoc x es) as [[c|sub]|].
      - destruct P; discriminate.
      - exists sub. split; [reflexivity|exact H].
      - discriminate. }
    destruct D as (sub & A & D).
    cbn [get alter]. rewrite assoc_update_first_same, A. cbn [option_map].
    apply (IH y sub). exact D.
Qed.

End TreeFacts.

(* ================================================================= *)
(** ** The handlers, case by case *)

Ltac monad_unfold :=
  unfold bind, ret, raise, try_except, try_finally, logger, path_exists,
    only_dirs, logged, with_fs in *.

Section Equations.

Variable E : env.

Lemma validate_audio_file_eq file w :
  validate_audio_file E file w =
    if negb (Str.mem (validated_ext file) ALLOWED_EXTENSIONS)
    then (Raise (unsupported_format E), w)
    else if declared_too_large file
         then (Raise file_too_large, w)
         else (Return tt, w).
Proof.
  unfold validate_audio_file. monad_unfold.
  destruct (negb (Str.mem (validated_ext file) ALLOWED_EXTENSIONS)); [reflexivity|].
  destruct (declared_too_large file); reflexivity.
Qed.

Lemma run_spleeter_separation_eq input_file output_dir w :
  run_spleeter_separation E input_file output_dir w =
    let cmd := spleeter_cmd input_file output_dir in
    let w0 := logged w INFO ("Running Spleeter command: " ++ Str.join " " cmd) in
    match spleeter E cmd with
    | SpawnError cls text =>
        (Raise (wrapped E (PyError cls text)),
         logged w0 ERROR ("Spleeter separation error: " ++ text))
    | Spawned c =>
        if 300 <? elapsed c
        then (Raise processing_timeout, ran w0 output_dir c cmd Killed)
        else
          let w1 := ran w0 output_dir c cmd (Exited (returncode c)) in
          match captured E c with
          | inr message =>
              (Raise (wrapped E (PyError "UnicodeDecodeError" message)),
               logged w1 ERROR ("Spleeter separation error: " ++ message))
          | inl (_, err) =>
              if negb (returncode c =? 0)
              then
                let e := HTTPException 500
                           ("Audio separation failed: " ++ err) in
                (Raise (wrapped E e),
                 logged (logged w1 ERROR ("Spleeter failed: " ++ err))
                        ERROR ("Spleeter separation error: " ++ str E e))
              else if negb (exists_ (vocals_path input_file output_dir) (fs w1))
                      || negb (exists_ (accompaniment_path input_file output_dir)
                                 (fs w1))
              then (Raise (wrapped E output_not_found),
                    logged w1 ERROR
                      ("Spleeter separation error: " ++ str E output_not_found))
              else (Return (vocals_path input_file output_dir,
                            accompaniment_path input_file output_dir), w1)
          end
    end.
Proof.
  unfold run_spleeter_separation, run_spleeter_body, run_spleeter_handler,
    subprocess_run, wrapped, ran.
  monad_unfold. cbn [fs procs log].
  destruct (spleeter E _) as [cls text|c]; [reflexivity|].
  destruct (300 <? elapsed c); [reflexivity|].
  destruct (captured E c) as [[out err]|message]; [|reflexivity].
  cbn [cp_returncode cp_stderr fs procs log].
  destruct (negb (returncode c =? 0)); [reflexivity|].
  cbn [fs procs log].
  destruct (negb (exists_ _ _) || negb (exists_ _ _)); reflexivity.
Qed.

Lemma separate_finally_eq p w :
  separate_finally E p w =
    match get p (fs w) with
    | None => (Return tt, w)
    | Some (File _) =>
        match unlink_fault E with
        | None => (Return tt, with_fs w (remove p (fs w)))
        | Some (cls, text) =>
            (Return tt,
             logged w WARNING ("Failed to clean up input file: " ++ text))
        end
    | Some (Dir _) =>
        (Return tt,
         logged w WARNING
           ("Failed to clean up input file: "
              ++ errno_text "[Errno 21] Is a directory" p))
    end.
Proof.
  unfold separate_finally, unlink. monad_unfold. unfold exists_.
  destruct (get p (fs w)) as [[c|es]|] eqn:G; rewrite ?G; try reflexivity.
  destruct (unlink_fault E) as [[cls text]|]; reflexivity.
Qed.

End Equations.

(* ================================================================= *)
(** ** What a request touches *)

Section Touched.

Lemma touched_one p q f d : touched_below p d (alter (p ++ q)%list f d).
Proof. apply touched_step. apply touched_none. Qed.

Lemma touched_trans p d1 d2 d3 :
  touched_below p d1 d2 -> touched_below p d2 d3 -> touched_below p d1 d3.
Proof.
  intros H12 H23. induction H23 as [|d' q f _ IH].
  - assumption.
  - apply touched_step. assumption.
Qed.

Lemma touched_is_dir p d d' :
  touched_below p d d' -> is_dir p d = true -> is_dir p d' = true.
Proof.
  intros T H. induction T as [|d' q f _ IH].
  - assumption.
  - apply is_dir_alter_below. assumption.
Qed.

Lemma touched_frame x p d d' y :
  touched_below (x :: p) d d' -> x <> y -> assoc y d' = assoc y d.
Proof.
  intros T N. induction T as [|d' q f _ IH].
  - reflexivity.
  - rewrite <- IH. apply (assoc_alter_other x (p ++ q)%list y f d' N).
Qed.

Lemma put_below p x q v d :
  put (p ++ x :: q)%list v d
  = alter (p ++ parent (x :: q))%list (set_entry (name (x :: q)) v) d.
Proof. unfold put. rewrite parent_app, name_app. reflexivity. Qed.

Lemma remove_below p x q d :
  remove (p ++ x :: q)%list d
  = alter (p ++ parent (x :: q))%list (remove_entry (name (x :: q))) d.
Proof.
  unfold remove. destruct (p ++ x :: q)%list eqn:A.
  - destruct p; discriminate.
  - rewrite <- A, parent_app, name_app. reflexivity.
Qed.

Lemma assoc_put_other x q y v d :
  x <> y -> assoc y (put (x :: q) v d) = assoc y d.
Proof.
  intro N. unfold put. destruct q as [|z q].
  - simpl. apply assoc_set_entry_other. assumption.
  - change (parent (x :: z :: q)) with (x :: parent (z :: q)).
    apply assoc_alter_other. assumption.
Qed.

End Touched.

Section Upload.

Variable E : env.
Variable file : UploadFile.

Let ws : Path := session_dir (uuid4 E).
Let input : Path := input_path (uuid4 E) file.

Lemma mkdir_exist_ok_cases p w :
  (exists w1, mkdir_exist_ok p w = (Return tt, w1)
              /\ is_dir p (fs w1) = true
              /\ procs w1 = procs w /\ log w1 = log w
              /\ (fs w1 = fs w \/ fs w1 = put p (Dir []) (fs w)))
  \/ (exists cls text, mkdir_exist_ok p w = (Raise (PyError cls text), w)).
Proof.
  unfold mkdir_exist_ok.
  destruct (get p (fs w)) as [[c|es]|] eqn:G.
  - right. do 2 eexists. reflexivity.
  - left. exists w. unfold is_dir. rewrite G. repeat split; auto.
  - destruct (is_dir (parent p) (fs w)) eqn:D.
    + left. eexists. split; [reflexivity|]. unfold with_fs. cbn [fs procs log].
      repeat split; auto.
      destruct p as [|x q]; [discriminate|].
      unfold is_dir at 1. rewrite get_put by assumption. reflexivity.
    + right. do 2 eexists. reflexivity.
Qed.

Lemma write_bytes_cases p x q content w :
  exists r w1, write_bytes E (p ++ x :: q)%list content w = (r, w1)
    /\ (r = Return tt \/ exists cls text, r = Raise (PyError cls text))
    /\ touched_below p (fs w) (fs w1)
    /\ procs w1 = procs w /\ log w1 = log w.
Proof.
  unfold write_bytes.
  assert (Hput : forall v, touched_below p (fs w) (put (p ++ x :: q)%list v (fs w))).
  { intro v. rewrite put_below. apply touched_one. }
  assert (Hnone : touched_below p (fs w) (fs w)) by apply touched_none.
  destruct (get _ (fs w)) as [[c|es]|].
  2: { do 2 eexists. split; [reflexivity|]. repeat split; eauto. }
  all: destruct (is_dir _ (fs w));
    [ destruct (write_fault E) as [[[cls text] [n|]]|] | ];
    do 2 eexists; (split; [reflexivity|]);
    unfold with_fs; cbn [fs procs log]; repeat split; eauto.
Qed.

Lemma guarded_eq w :
  guarded E file w =
    if too_large file then (Raise file_too_large, w)
    else
      match write_bytes E input (body file) w with
      | (Raise e, w2) => separate_handler E e w2
      | (Return _, w2) =>
          match run_spleeter_separation E input ws
                  (logged w2 INFO
                     ("Processing file: " ++ fmt_opt (filename file)
                        ++ " (Session: " ++ uuid4 E ++ ")")) with
          | (Return _, w3) => (Return (separated E file), w3)
          | (Raise e, w3) => separate_handler E e w3
          end
      end.
Proof.
  unfold guarded, separate_body, too_large. monad_unfold.
  destruct (MAX_FILE_SIZE <? _); [reflexivity|].
  fold input. fold ws.
  destruct (write_bytes E input (body file) w) as [[[]|e] w2]; [|reflexivity].
  cbn [fs procs log].
  destruct (run_spleeter_separation E input ws _) as [[pr|e] w3]; reflexivity.
Qed.

End Upload.

Section Stages.

Variable E : env.

Lemma run_spleeter_separation_cases input_file output_dir w :
  exists r w',
    run_spleeter_separation E input_file output_dir w = (r, w')
    /\ touched_below output_dir (fs w) (fs w')
    /\ (exists l, procs w' = (procs w ++ l)%list
                  /\ (List.length l <= 1)%nat
                  /\ (r = Raise processing_timeout ->
                      l = [(spleeter_cmd input_file output_dir, Killed)]))
    /\ (r = Return (vocals_path input_file output_dir,
                    accompaniment_path input_file output_dir)
        \/ r = Raise processing_timeout
        \/ exists d, r = Raise (HTTPException 500 d)).
Proof.
  rewrite run_spleeter_separation_eq. cbv zeta.
  assert (T : forall c, touched_below output_dir (fs w)
                          (alter output_dir (writes c) (fs w))).
  { intro c. rewrite <- (app_nil_r output_dir) at 2. apply touched_one. }
  destruct (spleeter E _) as [cls text|c].
  - do 2 eexists. split; [reflexivity|]. cbn [fs procs log logged].
    split; [apply touched_none|]. split.
    + exists []. rewrite app_nil_r. repeat split; auto. discriminate.
    + right. right. eexists. reflexivity.
  - destruct (300 <? elapsed c).
    { do 2 eexists. split; [reflexivity|]. cbn [fs procs log logged ran].
      split; [apply T|]. split.
      - eexists. repeat split; auto.
      - right. left. reflexivity. }
    destruct (captured E c) as [[out err]|message].
    2: { do 2 eexists. split; [reflexivity|]. cbn [fs procs log logged ran].
         split; [apply T|]. split.
         - eexists. repeat split; auto. discriminate.
         - right. right. eexists. reflexivity. }
    destruct (negb (returncode c =? 0)).
    { do 2 eexists. split; [reflexivity|]. cbn [fs procs log logged ran].
      split; [apply T|]. split.
      - eexists. repeat split; auto. discriminate.
      - right. right. eexists. reflexivity. }
    destruct (negb _ || negb _).
    + do 2 eexists. split; [reflexivity|]. cbn [fs procs log logged ran].
      split; [apply T|]. split.
      * eexists. repeat split; auto. discriminate.
      * right. right. eexists. reflexivity.
    + do 2 eexists. split; [reflexivity|]. cbn [fs procs log logged ran].
      split; [apply T|]. split.
      * eexists. repeat split; auto. discriminate.
      * left. reflexivity.
Qed.

Variable file : UploadFile.

Let ws : Path := session_dir (uuid4 E).
Let input : Path := input_path (uuid4 E) file.

Lemma guarded_cases w :
  exists r w',
    guarded E file w = (r, w')
    /\ touched_below ws (fs w) (fs w')
    /\ (exists l, procs w' = (procs w ++ l)%list
                  /\ (List.length l <= 1)%nat
                  /\ (r = Raise processing_timeout ->
                      l = [(spleeter_cmd input ws, Killed)]))
    /\ (r = Return (separated E file)
        \/ r = Raise file_too_large
        \/ r = Raise processing_timeout
        \/ exists d, r = Raise (HTTPException 500 d)).
Proof.
  rewrite guarded_eq. fold ws input.
  destruct (too_large file).
  { do 2 eexists. split; [reflexivity|]. split; [apply touched_none|]. split.
    - exists []. rewrite app_nil_r. repeat split; auto. discriminate.
    - right. left. reflexivity. }
  destruct (input_path_below (uuid4 E) file) as (x & q & I).
  fold ws input in I. rewrite I.
  destruct (write_bytes_cases E ws x q (body file) w)
    as (r & w2 & W & R & T & P & L).
  rewrite W. destruct R as [->|(cls & text & ->)].
  - rewrite <- I.
    destruct (run_spleeter_separation_cases input ws
                (logged w2 INFO
                   ("Processing file: " ++ fmt_opt (filename file)
                      ++ " (Session: " ++ uuid4 E ++ ")")))
      as (r & w3 & RS & T3 & (l & P3 & Len & K) & R3).
    rewrite RS. cbn [fs procs log logged] in T3, P3.
    destruct R3 as [->|[->|(d & ->)]].
    + do 2 eexists. split; [reflexivity|].
      split; [eapply touched_trans; eassumption|]. split.
      * exists l. rewrite P3, P. repeat split; auto. discriminate.
      * left. reflexivity.
    + do 2 eexists. split; [reflexivity|].
      split; [eapply touched_trans; eassumption|]. split.
      * exists l. rewrite P3, P. repeat split; auto.
      * right. right. left. reflexivity.
    + do 2 eexists. split; [reflexivity|].
      split; [eapply touched_trans; eassumption|]. split.
      * exists l. rewrite P3, P. repeat split; auto. discriminate.
      * right. right. right. eexists. reflexivity.
  - cbn [separate_handler]. monad_unfold. cbn [fs procs log].
    do 2 eexists. split; [reflexivity|]. cbn [fs procs log].
    split; [assumption|]. split.
    + exists []. rewrite app_nil_r. repeat split; auto. discriminate.
    + right. right. right. eexists. reflexivity.
Qed.

Lemma separate_finally_cases w :
  exists w',
    separate_finally E input w = (Return tt, w')
    /\ touched_below ws (fs w) (fs w')
    /\ procs w' = procs w.
Proof.
  rewrite separate_finally_eq.
  destruct (input_path_below (uuid4 E) file) as (x & q & I).
  fold ws input in I.
  destruct (get input (fs w)) as [[c|es]|].
  - destruct (unlink_fault E) as [[cls text]|].
    + eexists. split; [reflexivity|]. split; [apply touched_none|reflexivity].
    + eexists. split; [reflexivity|]. unfold with_fs. cbn [fs procs].
      split; [|reflexivity]. rewrite I, remove_below. apply touched_one.
  - eexists. split; [reflexivity|]. split; [apply touched_none|reflexivity].
  - eexists. split; [reflexivity|]. split; [apply touched_none|reflexivity].
Qed.

(** A request whose workspace is ready runs the guarded block from the
    world [mkdir] left and then the [finally] clause, which never changes
    the outcome. *)
Lemma separate_audio_ready w :
  workspace_ready E file w ->
  exists w1 r w2 w3,
    mkdir_exist_ok ws w = (Return tt, w1)
    /\ guarded E file w1 = (r, w2)
    /\ separate_finally E input w2 = (Return tt, w3)
    /\ separate_audio E file w = (r, w3).
Proof.
  intros [V K]. fold ws in K.
  destruct (mkdir_exist_ok_cases ws w) as [(w1 & Mk & _)|(cls & text & Mk)].
  2: { rewrite Mk in K. discriminate. }
  destruct (guarded_cases w1) as (r & w2 & G & _).
  destruct (separate_finally_cases w2) as (w3 & F & _).
  exists w1, r, w2, w3. repeat split; try assumption.
  unfold separate_audio. fold ws input. fold (guarded E file).
  unfold bind at 1.
  destruct (validate_audio_file E file w) as [[[]|e] w0] eqn:V'; [|discriminate].
  assert (w0 = w).
  { rewrite validate_audio_file_eq in V'.
    destruct (negb _); [discriminate|].
    destruct (declared_too_large file); [discriminate|].
    congruence. }
  subst w0. unfold bind. rewrite Mk. unfold try_finally. rewrite G, F.
  reflexivity.
Qed.

End Stages.

Lemma separate_audio_fst E file w :
  fst (separate_audio E file w) =
    match validate_audio_file E file w with
    | (Raise e, _) => Raise e
    | (Return _, w0) =>
        match mkdir_exist_ok (session_dir (uuid4 E)) w0 with
        | (Raise e, _) => Raise e
        | (Return _, w1) => fst (guarded E file w1)
        end
    end.
Proof.
  unfold separate_audio, bind.
  destruct (validate_audio_file E file w) as [[[]|e] w0]; [|reflexivity].
  destruct (mkdir_exist_ok _ w0) as [[[]|e] w1]; [|reflexivity].
  unfold try_finally. fold (guarded E file).
  destruct (guarded E file w1) as [r w2].
  destruct (separate_finally_cases E file w2) as (w3 & F & _).
  rewrite F. reflexivity.
Qed.

(* ================================================================= *)
(** ** Validation *)

Lemma separate_audio_bad_ext E file w :
  Str.mem (validated_ext file) ALLOWED_EXTENSIONS = false ->
  validate_audio_file E file w = (Raise (unsupported_format E), w)
  /\ separate_audio E file w = (Raise (unsupported_format E), w).
Proof.
  intro B.
  assert (V : validate_audio_file E file w = (Raise (unsupported_format E), w)).
  { rewrite validate_audio_file_eq, B. reflexivity. }
  split; [assumption|].
  unfold separate_audio, bind at 1. rewrite V. reflexivity.
Qed.

(** C4.  An upload whose extension, compared in lower case, is not one of
    [.mp3] and [.wav] is rejected with the 400 error "Unsupported file
    format", and the world is as it was: no workspace directory was made,
    no file was written, no process was started. *)
Theorem disallowed_extension_rejected_untouched E file w :
  Str.mem (validated_ext file) ALLOWED_EXTENSIONS = false ->
  separate_audio E file w = (Raise (unsupported_format E), w)
  /\ failure_status (fst (separate_audio E file w)) = Some 400.
Proof.
  intro B. destruct (separate_audio_bad_ext E file w B) as [_ S].
  rewrite S. split; reflexivity.
Qed.

Lemma disallowed_extension_witness :
  Str.mem (validated_ext Sample.ogg) ALLOWED_EXTENSIONS = false
  /\ separate_audio Sample.good_env Sample.ogg Sample.empty_world
     = (Raise (unsupported_format Sample.good_env), Sample.empty_world).
Proof.
  split; [reflexivity|].
  apply (disallowed_extension_rejected_untouched
           Sample.good_env Sample.ogg Sample.empty_world).
  reflexivity.
Defined.

Lemma no_suffix_not_allowed file :
  filename file = None \/ suffix (parts (or_else (filename file) "")) = "" ->
  Str.mem (validated_ext file) ALLOWED_EXTENSIONS = false.
Proof.
  unfold validated_ext. intros [N|S].
  - rewrite N. reflexivity.
  - rewrite S. reflexivity.
Qed.

(** C9.  An upload without a filename, or whose filename has no suffix, is
    validated with the empty suffix, which is not an allowed extension: the
    validator raises the 400 error "Unsupported file format", and so does
    the upload handler, leaving the world as it was. *)
Theorem missing_extension_rejected E file w :
  filename file = None \/ suffix (parts (or_else (filename file) "")) = "" ->
  validated_ext file = ""
  /\ validate_audio_file E file w = (Raise (unsupported_format E), w)
  /\ separate_audio E file w = (Raise (unsupported_format E), w).
Proof.
  intro H. split.
  - unfold validated_ext. destruct H as [N|S].
    + rewrite N. reflexivity.
    + rewrite S. reflexivity.
  - apply separate_audio_bad_ext, no_suffix_not_allowed, H.
Qed.

Lemma missing_extension_witness :
  validate_audio_file Sample.good_env (mkUpload None (Some 3) [x01])
    Sample.empty_world
  = (Raise (unsupported_format Sample.good_env), Sample.empty_world)
  /\ separate_audio Sample.good_env (mkUpload (Some "README") None [x01])
       Sample.empty_world
     = (Raise (unsupported_format Sample.good_env), Sample.empty_world).
Proof.
  split.
  - apply (missing_extension_rejected Sample.good_env
             (mkUpload None (Some 3) [x01]) Sample.empty_world).
    left. reflexivity.
  - apply (missing_extension_rejected Sample.good_env
             (mkUpload (Some "README") None [x01]) Sample.empty_world).
    right. reflexivity.
Defined.

(* ================================================================= *)
(** ** Download *)

Lemma download_track_eq session_id track_type w es :
  Str.mem track_type ["vocals"; "instrumental"] = true ->
  get (session_dir session_id) (fs w) = Some (Dir es) ->
  download_track session_id track_type w =
    match output_dirs session_id es w with
    | [] => (Raise (HTTPException 404 "Processed files not found"), w)
    | output_dir :: _ =>
        if exists_ (output_dir // stem_file track_type) (fs w)
        then (Return (FileResponse
                        (path_str (output_dir // stem_file track_type))
                        (download_name track_type) "audio/wav"), w)
        else (Raise (HTTPException 404
                       (Str.title track_type ++ " file not found")), w)
    end.
Proof.
  intros V G. unfold download_track, iterdir, output_dirs, stem_file,
    download_name. rewrite V. monad_unfold. cbn [negb]. cbv beta.
  unfold exists_ at 1. rewrite G. cbn [negb]. cbv beta. rewrite G.
  cbv beta iota.
  destruct (filter _ _) as [|output_dir rest]; [reflexivity|].
  destruct (String.eqb track_type "vocals"); cbv beta iota;
    destruct (exists_ _ (fs w)); reflexivity.
Qed.

(** C1, as the code has it.  For a valid track kind and a workspace that is
    a directory: without a subdirectory the request fails with 404
    "Processed files not found"; otherwise the first subdirectory in listing
    order is used, however many follow it, and the request succeeds exactly
    when the requested stem is in that first subdirectory. *)
Theorem download_uses_first_subdirectory session_id track_type w es :
  Str.mem track_type ["vocals"; "instrumental"] = true ->
  get (session_dir session_id) (fs w) = Some (Dir es) ->
  (output_dirs session_id es w = [] ->
   download_track session_id track_type w
   = (Raise (HTTPException 404 "Processed files not found"), w))
  /\ (forall output_dir rest,
        output_dirs session_id es w = output_dir :: rest ->
        download_track session_id track_type w
        = if exists_ (output_dir // stem_file track_type) (fs w)
          then (Return (FileResponse
                          (path_str (output_dir // stem_file track_type))
                          (download_name track_type) "audio/wav"), w)
          else (Raise (HTTPException 404
                         (Str.title track_type ++ " file not found")), w)).
Proof.
  intros V G. rewrite (download_track_eq _ _ _ _ V G). split.
  - intros ->. reflexivity.
  - intros output_dir rest ->. reflexivity.
Qed.

Lemma download_uses_first_subdirectory_witness :
  download_track "s1" "vocals" Sample.two_outputs
  = (Return (FileResponse "/tmp/vocal_remover_s1/a/vocals.wav"
               "vocals.wav" "audio/wav"), Sample.two_outputs).
Proof.
  refine (proj2 (download_uses_first_subdirectory "s1" "vocals"
                   Sample.two_outputs _ eq_refl eq_refl) _ _ eq_refl).
Defined.

(** C1, as stated, fails: this workspace holds two subdirectories, and the
    request is answered from the first of them. *)
Lemma two_subdirectories_still_resolve :
  get (session_dir "s1") (fs Sample.two_outputs) = Some (Dir Sample.two_dirs)
  /\ List.length (output_dirs "s1" Sample.two_dirs Sample.two_outputs) = 2%nat
  /\ fst (download_track "s1" "vocals" Sample.two_outputs)
     = Return (FileResponse "/tmp/vocal_remover_s1/a/vocals.wav"
                 "vocals.wav" "audio/wav").
Proof.
  split; [reflexivity|]. split; reflexivity.
Qed.



(* ================================================================= *)
(** ** The engine run *)

Lemma run_output_missing E input_file output_dir w c out err :
  spleeter E (spleeter_cmd input_file output_dir) = Spawned c ->
  elapsed c <= 300 ->
  captured E c = inl (out, err) ->
  returncode c = 0 ->
  exists_ (vocals_path input_file output_dir)
          (alter output_dir (writes c) (fs w)) = false
  \/ exists_ (accompaniment_path input_file output_dir)
             (alter output_dir (writes c) (fs w)) = false ->
  fst (run_spleeter_separation E input_file output_dir w)
  = Raise (wrapped E output_not_found).
Proof.
  intros S T C Z M. rewrite run_spleeter_separation_eq. cbv zeta. rewrite S.
  replace (300 <? elapsed c) with false by (symmetry; apply Z.ltb_ge; lia).
  rewrite C, Z. cbn [Z.eqb negb ran fs logged].
  destruct M as [M|M]; rewrite M; cbn [negb orb]; [reflexivity|].
  rewrite orb_true_r. reflexivity.
Qed.

Lemma run_engine_failure E input_file output_dir w c out err :
  spleeter E (spleeter_cmd input_file output_dir) = Spawned c ->
  elapsed c <= 300 ->
  captured E c = inl (out, err) ->
  returncode c <> 0 ->
  fst (run_spleeter_separation E input_file output_dir w)
  = Raise (wrapped E (HTTPException 500 ("Audio separation failed: " ++ err))).
Proof.
  intros S T C Z. rewrite run_spleeter_separation_eq. cbv zeta. rewrite S.
  replace (300 <? elapsed c) with false by (symmetry; apply Z.ltb_ge; lia).
  rewrite C.
  replace (returncode c =? 0) with false by (symmetry; apply Z.eqb_neq; exact Z).
  reflexivity.
Qed.

Lemma run_undecodable E input_file output_dir w c message :
  spleeter E (spleeter_cmd input_file output_dir) = Spawned c ->
  elapsed c <= 300 ->
  captured E c = inr message ->
  run_spleeter_separation E input_file output_dir w
  = (Raise (wrapped E (PyError "UnicodeDecodeError" message)),
     logged (ran (logged w INFO
                    ("Running Spleeter command: "
                       ++ Str.join " " (spleeter_cmd input_file output_dir)))
                 output_dir c (spleeter_cmd input_file output_dir)
                 (Exited (returncode c)))
            ERROR ("Spleeter separation error: " ++ message)).
Proof.
  intros S T C. rewrite run_spleeter_separation_eq. cbv zeta. rewrite S.
  replace (300 <? elapsed c) with false by (symmetry; apply Z.ltb_ge; lia).
  rewrite C. reflexivity.
Qed.

Lemma run_spawn_error E input_file output_dir w cls text :
  spleeter E (spleeter_cmd input_file output_dir) = SpawnError cls text ->
  fst (run_spleeter_separation E input_file output_dir w)
  = Raise (wrapped E (PyError cls text)).
Proof.
  intros S. rewrite run_spleeter_separation_eq. cbv zeta. rewrite S.
  reflexivity.
Qed.

Lemma run_success_has_both E input_file output_dir w v a :
  fst (run_spleeter_separation E input_file output_dir w) = Return (v, a) ->
  v = vocals_path input_file output_dir
  /\ a = accompaniment_path input_file output_dir
  /\ exists_ v (fs (snd (run_spleeter_separation E input_file output_dir w)))
     = true
  /\ exists_ a (fs (snd (run_spleeter_separation E input_file output_dir w)))
     = true.
Proof.
  rewrite run_spleeter_separation_eq. cbv zeta.
  destruct (spleeter E _) as [cls text|c]; [discriminate|].
  destruct (300 <? elapsed c); [discriminate|].
  destruct (captured E c) as [[out err]|message]; [|discriminate].
  destruct (negb (returncode c =? 0)); [discriminate|].
  destruct (exists_ (vocals_path _ _) _) eqn:V;
    destruct (exists_ (accompaniment_path _ _) _) eqn:A;
    cbn [negb orb fst snd]; try discriminate.
  intro H. injection H as <- <-. auto.
Qed.

(** Such a run in general.  When the engine exits with status zero within
    the time limit, its output decodes and one of the two expected files is
    missing afterwards,
    the run ends in what the catch-all clause makes of the error raised for
    it, an HTTP 500 like the one for an engine failure and for a failure to
    start the engine.  A run never succeeds with one stem: a successful run
    returns the two expected paths and both exist. *)
Lemma output_missing_in_general E input_file output_dir w c out err :
  spleeter E (spleeter_cmd input_file output_dir) = Spawned c ->
  elapsed c <= 300 ->
  captured E c = inl (out, err) ->
  returncode c = 0 ->
  exists_ (vocals_path input_file output_dir)
          (alter output_dir (writes c) (fs w)) = false
  \/ exists_ (accompaniment_path input_file output_dir)
             (alter output_dir (writes c) (fs w)) = false ->
  fst (run_spleeter_separation E input_file output_dir w)
  = Raise (HTTPException 500
             ("Audio separation failed: " ++ str E output_not_found))
  /\ (forall E' i o w' c',
        spleeter E' (spleeter_cmd i o) = Spawned c' ->
        elapsed c' <= 300 -> returncode c' <> 0 ->
        failure_status (fst (run_spleeter_separation E' i o w')) = Some 500)
  /\ (forall E' i o w' cls text,
        spleeter E' (spleeter_cmd i o) = SpawnError cls text ->
        fst (run_spleeter_separation E' i o w')
        = Raise (HTTPException 500 ("Audio separation failed: " ++ text)))
  /\ (forall E' i o w' v a,
        fst (run_spleeter_separation E' i o w') = Return (v, a) ->
        exists_ v (fs (snd (run_spleeter_separation E' i o w'))) = true
        /\ exists_ a (fs (snd (run_spleeter_separation E' i o w'))) = true).
Proof.
  intros S T C Z M. split; [|split; [|split]].
  - rewrite (run_output_missing E input_file output_dir w c out err S T C Z M).
    reflexivity.
  - intros E' i o w' c' S' T' Z'.
    destruct (captured E' c') as [[out' err']|message] eqn:C'.
    + rewrite (run_engine_failure E' i o w' c' out' err' S' T' C' Z').
      reflexivity.
    + rewrite (run_undecodable E' i o w' c' message S' T' C'). reflexivity.
  - intros E' i o w' cls text S'.
    rewrite (run_spawn_error E' i o w' cls text S'). reflexivity.
  - intros E' i o w' v a R.
    destruct (run_success_has_both E' i o w' v a R) as (_ & _ & V & A).
    split; assumption.
Qed.

(** C2.  The engine exits with status zero and leaves the vocals but no
    accompaniment.  The error raised for it, 500 "Separation completed but
    output files not found", does not leave the function: the catch-all
    clause of the same [try] takes it and answers as it answers any
    failure, with 500 "Audio separation failed: ..." around the text of the
    exception.  That is the status and the form of the answer for a failing
    engine and for a missing engine; where [str] of an [HTTPException] is
    empty, it is the very answer for a failing engine.  No stem is returned
    as success. *)
Lemma output_missing_is_answered_as_any_failure :
  let i := input_path Sample.sid Sample.song in
  let o := session_dir Sample.sid in
  let run E := run_spleeter_separation E i o Sample.saved_world in
  (spleeter (Sample.env_of Sample.half_child) (spleeter_cmd i o)
   = Spawned Sample.half_child
   /\ elapsed Sample.half_child <= 300
   /\ returncode Sample.half_child = 0
   /\ exists_ (vocals_path i o)
              (fs (snd (run (Sample.env_of Sample.half_child)))) = true
   /\ exists_ (accompaniment_path i o)
              (fs (snd (run (Sample.env_of Sample.half_child)))) = false)
  /\ fst (run (Sample.env_of Sample.half_child))
     = Raise (HTTPException 500
                "Audio separation failed: 500: Separation completed but output files not found")
  /\ fst (run (Sample.env_of Sample.half_child))
     = fst (run_spleeter_handler (Sample.env_of Sample.half_child)
              output_not_found Sample.saved_world)
  /\ fst (run (Sample.env_of Sample.failing_child))
     = Raise (HTTPException 500
                "Audio separation failed: 500: Audio separation failed: ffprobe error")
  /\ fst (run Sample.no_engine_env)
     = Raise (HTTPException 500
                "Audio separation failed: [Errno 2] No such file or directory: 'spleeter'")
  /\ fst (run (Sample.old_env_of Sample.half_child))
     = Raise (HTTPException 500 "Audio separation failed: ")
  /\ fst (run (Sample.old_env_of Sample.half_child))
     = fst (run (Sample.old_env_of Sample.failing_child)).
Proof.
  cbv zeta. split; [repeat split; vm_compute; try reflexivity; discriminate|].
  repeat split; vm_compute; reflexivity.
Qed.

Lemma run_timeout E input_file output_dir w c :
  spleeter E (spleeter_cmd input_file output_dir) = Spawned c ->
  300 < elapsed c ->
  run_spleeter_separation E input_file output_dir w
  = (Raise processing_timeout,
     ran (logged w INFO
            ("Running Spleeter command: "
               ++ Str.join " " (spleeter_cmd input_file output_dir)))
         output_dir c (spleeter_cmd input_file output_dir) Killed).
Proof.
  intros S T. rewrite run_spleeter_separation_eq. cbv zeta. rewrite S.
  replace (300 <? elapsed c) with true by (symmetry; apply Z.ltb_lt; exact T).
  reflexivity.
Qed.

Lemma run_timeout_only E input_file output_dir w :
  fst (run_spleeter_separation E input_file output_dir w)
  = Raise processing_timeout ->
  exists c, spleeter E (spleeter_cmd input_file output_dir) = Spawned c
            /\ 300 < elapsed c.
Proof.
  rewrite run_spleeter_separation_eq. cbv zeta.
  destruct (spleeter E _) as [cls text|c]; [discriminate|].
  destruct (300 <? elapsed c) eqn:T.
  - intros _. exists c. split; [reflexivity|]. apply Z.ltb_lt. exact T.
  - destruct (captured E c) as [[out err]|message]; [|discriminate].
    destruct (negb (returncode c =? 0)); [discriminate|].
    destruct (negb _ || negb _); discriminate.
Qed.

(** An upload either gets to its [try] block or ends before anything was
    touched beyond the workspace directory. *)
Lemma separate_audio_entry E file w :
  workspace_ready E file w
  \/ (exists e, separate_audio E file w = (Raise e, w)
                /\ e <> processing_timeout).
Proof.
  unfold workspace_ready.
  destruct (validate_audio_file E file w) as [[[]|e] w0] eqn:V.
  - assert (w0 = w).
    { rewrite validate_audio_file_eq in V.
      destruct (negb _); [discriminate|].
      destruct (declared_too_large file); [discriminate|]. congruence. }
    subst w0.
    destruct (mkdir_exist_ok_cases (session_dir (uuid4 E)) w)
      as [(w1 & Mk & _)|(cls & text & Mk)].
    + left. rewrite Mk. split; reflexivity.
    + right. exists (PyError cls text). split; [|discriminate].
      unfold separate_audio, bind at 1. rewrite V. unfold bind. rewrite Mk.
      reflexivity.
  - right. exists e.
    assert (w0 = w /\ e <> processing_timeout) as [-> N].
    { rewrite validate_audio_file_eq in V.
      destruct (negb _).
      - injection V as <- <-. split; [reflexivity|discriminate].
      - destruct (declared_too_large file); [|discriminate].
        injection V as <- <-. split; [reflexivity|discriminate]. }
    split; [|exact N].
    unfold separate_audio, bind at 1. rewrite V. reflexivity.
Qed.

Lemma separate_audio_procs E file w :
  exists l,
    procs (snd (separate_audio E file w)) = (procs w ++ l)%list
    /\ (List.length l <= 1)%nat
    /\ (fst (separate_audio E file w) = Raise processing_timeout ->
        l = [(spleeter_cmd (input_path (uuid4 E) file)
                (session_dir (uuid4 E)), Killed)]).
Proof.
  destruct (separate_audio_entry E file w) as [R|(e & S & N)].
  - destruct (separate_audio_ready E file w R)
      as (w1 & r & w2 & w3 & Mk & G & F & S).
    destruct (mkdir_exist_ok_cases (session_dir (uuid4 E)) w)
      as [(w1' & Mk' & _ & P1 & _)|(cls & text & Mk')];
      rewrite Mk in Mk'; [|discriminate].
    injection Mk' as <-.
    destruct (guarded_cases E file w1) as (r' & w2' & G' & _ & (l & P2 & Len & K) & _).
    rewrite G in G'. injection G' as <- <-.
    destruct (separate_finally_cases E file w2) as (w3' & F' & _ & P3).
    rewrite F in F'. injection F' as <-.
    exists l. rewrite S. cbn [fst snd]. rewrite P3, P2, P1. auto.
  - exists []. rewrite S. cbn [fst snd]. rewrite app_nil_r.
    repeat split; auto. intro H. injection H as H. contradiction.
Qed.

(** C8.  A child process that is still running after 300 seconds is killed;
    the run fails with the 408 error "Processing timeout", which no other
    run ends in; the process table gains this one killed process and
    nothing else.  An upload starts at most one engine process, and one
    that ends in the timeout error started exactly one, now killed: there
    is no second attempt. *)
Theorem timeout_kills_and_is_not_retried E input_file output_dir w c :
  spleeter E (spleeter_cmd input_file output_dir) = Spawned c ->
  300 < elapsed c ->
  fst (run_spleeter_separation E input_file output_dir w)
  = Raise processing_timeout
  /\ procs (snd (run_spleeter_separation E input_file output_dir w))
     = (procs w ++ [(spleeter_cmd input_file output_dir, Killed)])%list
  /\ (forall E' i o w',
        fst (run_spleeter_separation E' i o w') = Raise processing_timeout ->
        exists c', spleeter E' (spleeter_cmd i o) = Spawned c'
                   /\ 300 < elapsed c')
  /\ (forall E' file w',
        exists l,
          procs (snd (separate_audio E' file w')) = (procs w' ++ l)%list
          /\ (List.length l <= 1)%nat
          /\ (fst (separate_audio E' file w') = Raise processing_timeout ->
              l = [(spleeter_cmd (input_path (uuid4 E') file)
                      (session_dir (uuid4 E')), Killed)])).
Proof.
  intros S T. rewrite (run_timeout E input_file output_dir w c S T).
  split; [reflexivity|]. split; [reflexivity|]. split.
  - intros E' i o w'. apply run_timeout_only.
  - intros E' file w'. apply separate_audio_procs.
Qed.

Lemma timeout_witness :
  fst (separate_audio (Sample.env_of Sample.slow_child) Sample.song
         Sample.empty_world) = Raise processing_timeout
  /\ fst (run_spleeter_separation (Sample.env_of Sample.slow_child)
            (input_path Sample.sid Sample.song) (session_dir Sample.sid)
            Sample.saved_world)
     = Raise processing_timeout.
Proof.
  split; [reflexivity|].
  refine (proj1 (timeout_kills_and_is_not_retried
                   (Sample.env_of Sample.slow_child)
                   (input_path Sample.sid Sample.song)
                   (session_dir Sample.sid)
                   Sample.saved_world Sample.slow_child eq_refl eq_refl)).
Defined.

(* ================================================================= *)
(** ** The size ceiling *)

Lemma zeros_length n :
  0 <= n -> Z.of_nat (List.length (Sample.zeros n)) = n.
Proof.
  intro H. unfold Sample.zeros. rewrite repeat_length. apply Z2Nat.id. exact H.
Qed.

(** C3, as the code has it.  An upload with an allowed extension whose body
    is longer than [MAX_FILE_SIZE] is rejected with the 400 error "File too
    large", whatever size the client declared or did not declare, provided
    the workspace directory of the fresh session id can be made. *)
Theorem oversized_body_rejected E file w :
  Str.mem (validated_ext file) ALLOWED_EXTENSIONS = true ->
  MAX_FILE_SIZE < Z.of_nat (List.length (body file)) ->
  fst (mkdir_exist_ok (session_dir (uuid4 E)) w) = Return tt ->
  fst (separate_audio E file w) = Raise file_too_large.
Proof.
  intros X L Mk.
  destruct (declared_too_large file) eqn:D.
  - unfold separate_audio, bind at 1.
    rewrite validate_audio_file_eq, X, D. reflexivity.
  - assert (R : workspace_ready E file w).
    { split; [|exact Mk]. rewrite validate_audio_file_eq, X, D. reflexivity. }
    destruct (separate_audio_ready E file w R)
      as (w1 & r & w2 & w3 & _ & G & _ & S).
    rewrite S. cbn [fst]. rewrite guarded_eq in G.
    replace (too_large file) with true in G
      by (symmetry; apply Z.ltb_lt; exact L).
    congruence.
Qed.

Lemma oversized_body_witness :
  fst (separate_audio Sample.good_env
         (mkUpload (Some "big.WAV") (Some 1024)
            (Sample.zeros (MAX_FILE_SIZE + 1)))
         Sample.empty_world)
  = Raise file_too_large.
Proof.
  apply (oversized_body_rejected Sample.good_env
           (mkUpload (Some "big.WAV") (Some 1024)
              (Sample.zeros (MAX_FILE_SIZE + 1)))
           Sample.empty_world).
  - reflexivity.
  - cbn [body]. rewrite zeros_length; [lia|]. unfold MAX_FILE_SIZE. lia.
  - reflexivity.
Defined.

(** C3, as stated, fails: a body over the ceiling that is named [big.ogg]
    is rejected for its extension, before any size is looked at; and when
    the workspace directory cannot be made, the body is never measured. *)
Lemma oversized_ogg_rejected_for_its_extension :
  let ogg := mkUpload (Some "big.ogg") None
               (Sample.zeros (MAX_FILE_SIZE + 1)) in
  let wav := mkUpload (Some "big.wav") None
               (Sample.zeros (MAX_FILE_SIZE + 1)) in
  MAX_FILE_SIZE < Z.of_nat (List.length (body ogg))
  /\ fst (separate_audio Sample.good_env ogg Sample.empty_world)
     = Raise (HTTPException 400
                "Unsupported file format. Allowed formats: .mp3, .wav")
  /\ fst (separate_audio Sample.good_env ogg Sample.empty_world)
     <> Raise file_too_large
  /\ fst (separate_audio Sample.good_env wav Sample.occupied_world)
     = Raise (PyError "FileExistsError"
                "[Errno 17] File exists: '/tmp/vocal_remover_0b9edc7e-5c44-4f0e-9d0a-2f6f3f1a7c11'").
Proof.
  cbv zeta.
  assert (S : fst (separate_audio Sample.good_env
                     (mkUpload (Some "big.ogg") None
                        (Sample.zeros (MAX_FILE_SIZE + 1)))
                     Sample.empty_world)
              = Raise (HTTPException 400
                         "Unsupported file format. Allowed formats: .mp3, .wav")).
  { destruct (separate_audio_bad_ext Sample.good_env
                (mkUpload (Some "big.ogg") None
                   (Sample.zeros (MAX_FILE_SIZE + 1)))
                Sample.empty_world eq_refl) as [_ ->].
    reflexivity. }
  split; [|split; [|split]].
  - cbn [body]. rewrite zeros_length; [lia|]. unfold MAX_FILE_SIZE. lia.
  - exact S.
  - rewrite S. discriminate.
  - rewrite separate_audio_fst. reflexivity.
Qed.

(* ================================================================= *)
(** ** Cleanup *)

Lemma cleanup_session_eq E session_id w :
  cleanup_session E session_id w =
    match get (session_dir session_id) (fs w) with
    | None => (AlreadyAbsent, w)
    | Some (File _) =>
        (DeleteError,
         logged w ERROR
           ("Failed to clean up session " ++ session_id ++ ": "
              ++ errno_repr "[Errno 20] Not a directory"
                   (session_dir session_id)))
    | Some (Dir _) =>
        match rmtree_fault E with
        | None =>
            (Removed, with_fs w (remove (session_dir session_id) (fs w)))
        | Some (cls, text, remains) =>
            (DeleteError,
             logged (with_fs w (alter (session_dir session_id)
                                  (fun _ => remains) (fs w)))
               ERROR ("Failed to clean up session " ++ session_id ++ ": "
                        ++ text))
        end
    end.
Proof.
  unfold cleanup_session, rmtree. monad_unfold. unfold exists_.
  destruct (get (session_dir session_id) (fs w)) as [[c|es]|] eqn:G;
    rewrite ?G; try reflexivity.
  destruct (rmtree_fault E) as [[[cls text] remains]|]; reflexivity.
Qed.

Lemma session_dir_removed session_id d :
  exists_ (session_dir session_id) (remove (session_dir session_id) d) = false.
Proof.
  destruct (session_dir_cons session_id) as (x & q & ->).
  unfold exists_. rewrite get_remove. reflexivity.
Qed.

(** C6, as the code has it.  For a session id whose workspace name the
    system accepts (one path component of at most [NAME_MAX] bytes), and
    unless the delete itself errors, cleaning up twice succeeds twice: the
    first call answers "cleaned up" when the workspace was there and
    "already cleaned up" when it was not, the workspace is gone afterwards,
    and the second call answers "already cleaned up" and changes nothing.
    A session that never existed is answered "already cleaned up".  The
    delete of a workspace directory does not error unless the environment
    makes it. *)
Theorem cleanup_is_idempotent E1 E2 session_id w :
  name_fits session_id = true ->
  fst (cleanup_session E1 session_id w) <> DeleteError ->
  fst (cleanup_session E1 session_id w)
  = (if exists_ (session_dir session_id) (fs w) then Removed else AlreadyAbsent)
  /\ exists_ (session_dir session_id)
             (fs (snd (cleanup_session E1 session_id w))) = false
  /\ cleanup_session E2 session_id (snd (cleanup_session E1 session_id w))
     = (AlreadyAbsent, snd (cleanup_session E1 session_id w))
  /\ (exists_ (session_dir session_id) (fs w) = false ->
      cleanup_session E1 session_id w = (AlreadyAbsent, w))
  /\ (is_dir (session_dir session_id) (fs w) = true ->
      rmtree_fault E1 = None ->
      fst (cleanup_session E1 session_id w) = Removed).
Proof.
  intros _ N.
  assert (A : forall w0, exists_ (session_dir session_id) (fs w0) = false ->
                         cleanup_session E2 session_id w0 = (AlreadyAbsent, w0)).
  { intros w0 H. rewrite cleanup_session_eq. unfold exists_ in H.
    destruct (get _ (fs w0)); [discriminate|reflexivity]. }
  rewrite cleanup_session_eq in *. unfold exists_, is_dir.
  destruct (get (session_dir session_id) (fs w)) as [[c|es]|] eqn:G.
  - exfalso. apply N. reflexivity.
  - destruct (rmtree_fault E1) as [[[cls text] remains]|].
    + exfalso. apply N. reflexivity.
    + cbn [fst snd with_fs fs].
      assert (R := session_dir_removed session_id (fs w)).
      split; [reflexivity|]. split; [exact R|]. split.
      * apply A. exact R.
      * split; [discriminate|reflexivity].
  - cbn [fst snd]. split; [reflexivity|].
    assert (R : exists_ (session_dir session_id) (fs w) = false).
    { unfold exists_. rewrite G. reflexivity. }
    split; [exact R|]. split; [apply A; exact R|].
    split; [reflexivity|discriminate].
Qed.

Lemma cleanup_is_idempotent_witness :
  name_fits Sample.sid = true
  /\ fst (cleanup_session Sample.good_env Sample.sid Sample.saved_world)
     = Removed
  /\ cleanup_session Sample.good_env Sample.sid
       (snd (cleanup_session Sample.good_env Sample.sid Sample.saved_world))
     = (AlreadyAbsent,
        snd (cleanup_session Sample.good_env Sample.sid Sample.saved_world)).
Proof.
  assert (N : fst (cleanup_session Sample.good_env Sample.sid Sample.saved_world)
              <> DeleteError) by (vm_compute; discriminate).
  destruct (cleanup_is_idempotent Sample.good_env Sample.good_env
              Sample.sid Sample.saved_world eq_refl N) as (H1 & _ & H3 & _).
  split; [reflexivity|]. split; [exact H1|exact H3].
Defined.

(** C6, as stated, fails: when the delete errors, the first call fails with
    "Cleanup failed", and here so does the second. *)
Lemma cleanup_can_fail_twice :
  fst (cleanup_session Sample.stuck_env Sample.sid Sample.saved_world)
  = DeleteError
  /\ fst (cleanup_session Sample.stuck_env Sample.sid
            (snd (cleanup_session Sample.stuck_env Sample.sid
                    Sample.saved_world)))
     = DeleteError.
Proof. split; vm_compute; reflexivity. Qed.

(* ================================================================= *)
(** ** The transient input file *)

Lemma input_path_cons session_id file :
  exists x q, input_path session_id file = x :: q.
Proof.
  destruct (input_path_below session_id file) as (x & q & ->).
  destruct (session_dir_cons session_id) as (y & p & ->).
  simpl. eauto.
Qed.

Lemma unlink_fault_irrelevant E fault file w :
  fst (separate_audio (with_unlink_fault E fault) file w)
  = fst (separate_audio E file w).
Proof. rewrite !separate_audio_fst. reflexivity. Qed.

(** C7.  Once the workspace of a request is ready, the [finally] clause
    runs on every way out of the handler, whatever the engine did.  What
    becomes of the deletion never changes the outcome of the request; when
    the deletion does not fail, no file is left at the input path; and
    whenever something is left there, the failure to remove it is the last
    thing logged, as a warning. *)
Theorem input_file_removed_on_every_exit E file w :
  workspace_ready E file w ->
  (forall fault,
     fst (separate_audio (with_unlink_fault E fault) file w)
     = fst (separate_audio E file w))
  /\ (unlink_fault E = None ->
      forall c, get (input_path (uuid4 E) file)
                    (fs (snd (separate_audio E file w))) <> Some (File c))
  /\ (exists_ (input_path (uuid4 E) file)
               (fs (snd (separate_audio E file w))) = true ->
      exists msg,
        last (log (snd (separate_audio E file w))) (INFO, "")
        = (WARNING, "Failed to clean up input file: " ++ msg)).
Proof.
  intro R. split; [intro fault; apply unlink_fault_irrelevant|].
  destruct (separate_audio_ready E file w R)
    as (w1 & r & w2 & w3 & _ & _ & F & ->).
  cbn [snd]. rewrite separate_finally_eq in F.
  destruct (input_path_cons (uuid4 E) file) as (x & q & I).
  unfold exists_.
  destruct (get (input_path (uuid4 E) file) (fs w2)) as [[c0|es]|] eqn:G.
  - destruct (unlink_fault E) as [[cls text]|].
    + injection F as <-. split; [discriminate|].
      intros _. exists text. unfold logged. cbn [log]. apply last_last.
    + injection F as <-. unfold with_fs. cbn [fs].
      rewrite I, get_remove. split; [discriminate|discriminate].
  - injection F as <-. unfold logged. cbn [fs log]. rewrite G.
    split; [discriminate|].
    intros _. eexists. apply last_last.
  - injection F as <-. rewrite G. split; [discriminate|discriminate].
Qed.

Lemma input_file_removed_witness :
  fst (separate_audio (Sample.sticky (Sample.env_of Sample.slow_child))
         Sample.song Sample.empty_world)
  = fst (separate_audio (Sample.env_of Sample.slow_child)
           Sample.song Sample.empty_world)
  /\ exists_ (input_path Sample.sid Sample.song)
              (fs (snd (separate_audio (Sample.env_of Sample.slow_child)
                          Sample.song Sample.empty_world))) = false.
Proof.
  assert (R : workspace_ready (Sample.env_of Sample.slow_child) Sample.song
                Sample.empty_world) by (split; reflexivity).
  destruct (input_file_removed_on_every_exit
              (Sample.env_of Sample.slow_child) Sample.song
              Sample.empty_world R) as (H1 & H2 & _).
  split.
  - apply H1.
  - specialize (H2 eq_refl). unfold exists_.
    destruct (get _ _) as [[c|es]|] eqn:G.
    + exfalso. exact (H2 c eq_refl).
    + vm_compute in G. discriminate.
    + reflexivity.
Defined.

(* ================================================================= *)
(** ** What a failed upload leaves behind *)

Lemma separate_finally_fs E p w :
  fs (snd (separate_finally E p w)) = fs w
  \/ fs (snd (separate_finally E p w)) = remove p (fs w).
Proof.
  rewrite separate_finally_eq.
  destruct (get p (fs w)) as [[c|es]|]; auto.
  destruct (unlink_fault E) as [[cls text]|]; auto.
Qed.




(* ================================================================= *)
(** ** The scenarios of the specification, run on the model *)

Section Scenarios.

Import Sample.

Let after_upload : world := snd (separate_audio good_env song empty_world).

(** A: a valid [song.mp3] is separated and both stems can be fetched. *)
Example scenario_upload_and_download :
  fst (separate_audio good_env song empty_world) = Return (separated good_env song)
  /\ fst (download_track sid "vocals" after_upload)
     = Return (FileResponse ("/tmp/vocal_remover_" ++ sid ++ "/input/vocals.wav")
                 "vocals.wav" "audio/wav")
  /\ fst (download_track sid "instrumental" after_upload)
     = Return (FileResponse
                 ("/tmp/vocal_remover_" ++ sid ++ "/input/accompaniment.wav")
                 "instrumental.wav" "audio/wav")
  /\ exists_ (input_path sid song) (fs after_upload) = false.
Proof. repeat split; vm_compute; reflexivity. Qed.

(** The suffix is compared in lower case and the input keeps its case. *)
Example scenario_upper_case_extension :
  validated_ext (mkUpload (Some "Song.MP3") None []) = ".mp3"
  /\ input_path sid (mkUpload (Some "Song.MP3") None [])
     = ["vocal_remover_" ++ sid; "input.MP3"]
  /\ stem (input_path sid (mkUpload (Some "Song.MP3") None [])) = "input".
Proof. repeat split; vm_compute; reflexivity. Qed.

(** D: an unknown session is not found. *)
Example scenario_unknown_session :
  download_track "nobody" "vocals" empty_world
  = (Raise (HTTPException 404 "Session not found or expired"), empty_world).
Proof. reflexivity. Qed.

(** F: cleaning up an unknown session succeeds. *)
Example scenario_cleanup_unknown :
  cleanup_session good_env "nobody" empty_world = (AlreadyAbsent, empty_world).
Proof. reflexivity. Qed.

End Scenarios.

(* ================================================================= *)
(** ** The health endpoints *)

Lemma check_spleeter_installation_eq E w :
  check_spleeter_installation E w =
    match spleeter E ["spleeter"; "--help"] with
    | SpawnError cls text =>
        if String.eqb cls "FileNotFoundError"
        then (Return false, w)
        else (Raise (PyError cls text), w)
    | Spawned c =>
        if 10 <? elapsed c
        then (Return false, ran w TEMP_DIR c ["spleeter"; "--help"] Killed)
        else
          let w1 :=
            ran w TEMP_DIR c ["spleeter"; "--help"] (Exited (returncode c)) in
          match captured E c with
          | inl _ => (Return (returncode c =? 0), w1)
          | inr message => (Raise (PyError "UnicodeDecodeError" message), w1)
          end
    end.
Proof.
  unfold check_spleeter_installation, subprocess_run, ran. monad_unfold.
  destruct (spleeter E _) as [cls text|c].
  - destruct (String.eqb cls "FileNotFoundError"); reflexivity.
  - destruct (10 <? elapsed c); [reflexivity|].
    destruct (captured E c) as [[out err]|message]; reflexivity.
Qed.

(** X1.  The engine is reported as installed exactly when [spleeter --help]
    starts, ends within 10 seconds, writes output that decodes and exits
    with status zero.  A child that runs longer is killed and the report is
    [False], as it is when the program is not found.  Nothing else is
    caught: any other failure to start the program leaves the function as
    it came, and so does the [UnicodeDecodeError] for output that does not
    decode, which is raised once the child has exited. *)
Theorem spleeter_installation_report E w :
  (fst (check_spleeter_installation E w) = Return true
   <-> exists c out err,
         spleeter E ["spleeter"; "--help"] = Spawned c
         /\ elapsed c <= 10 /\ captured E c = inl (out, err)
         /\ returncode c = 0)
  /\ (forall c, spleeter E ["spleeter"; "--help"] = Spawned c ->
                10 < elapsed c ->
                fst (check_spleeter_installation E w) = Return false
                /\ procs (snd (check_spleeter_installation E w))
                   = (procs w ++ [(["spleeter"; "--help"], Killed)])%list)
  /\ (forall text,
        spleeter E ["spleeter"; "--help"] = SpawnError "FileNotFoundError" text ->
        check_spleeter_installation E w = (Return false, w))
  /\ (forall e, fst (check_spleeter_installation E w) = Raise e <->
                (exists cls text,
                   spleeter E ["spleeter"; "--help"] = SpawnError cls text
                   /\ cls <> "FileNotFoundError" /\ e = PyError cls text)
                \/ (exists c message,
                      spleeter E ["spleeter"; "--help"] = Spawned c
                      /\ elapsed c <= 10 /\ captured E c = inr message
                      /\ e = PyError "UnicodeDecodeError" message))
  /\ (forall c message,
        spleeter E ["spleeter"; "--help"] = Spawned c ->
        elapsed c <= 10 -> captured E c = inr message ->
        procs (snd (check_spleeter_installation E w))
        = (procs w ++ [(["spleeter"; "--help"], Exited (returncode c))])%list).
Proof.
  rewrite check_spleeter_installation_eq.
  destruct (spleeter E _) as [cls text|c] eqn:S.
  - destruct (String.eqb cls "FileNotFoundError") eqn:C.
    + apply String.eqb_eq in C. subst cls.
      split; [split; [discriminate|intros (c & o & r & H & _); discriminate]|].
      split; [discriminate|]. split; [reflexivity|].
      split; [|discriminate].
      intro e. split; [discriminate|].
      intros [(cls & t & H & N & _)|(c & m & H & _)]; [|discriminate].
      injection H as <- _. contradiction.
    + apply String.eqb_neq in C.
      split; [split; [discriminate|intros (c & o & r & H & _); discriminate]|].
      split; [discriminate|]. split.
      * intros t H. injection H as -> _. contradiction.
      * split; [|discriminate].
        intro e. cbn [fst]. split.
        -- intro H. injection H as <-. left. eauto.
        -- intros [(cls' & t & H & _ & ->)|(c & m & H & _)]; [|discriminate].
           injection H as <- <-. reflexivity.
  - destruct (10 <? elapsed c) eqn:T.
    + apply Z.ltb_lt in T. cbn [fst snd ran procs].
      split; [split; [discriminate|]|].
      { intros (c' & o & r & H & L & _). injection H as <-. lia. }
      split; [intros c' H _; injection H as <-; split; reflexivity|].
      split; [discriminate|].
      split; [|intros c' m H L; injection H as <-; lia].
      intro e. split; [discriminate|].
      intros [(cls & t & H & _)|(c' & m & H & L & _)]; [discriminate|].
      injection H as <-. lia.
    + apply Z.ltb_ge in T. cbv zeta.
      destruct (captured E c) as [[out err]|message] eqn:C;
        cbn [fst snd ran procs].
      * split; [split|].
        -- intro H. injection H as H. apply Z.eqb_eq in H.
           exists c, out, err. auto.
        -- intros (c' & o & r & H & _ & _ & R). injection H as <-.
           rewrite R. reflexivity.
        -- split; [intros c' H L; injection H as <-; lia|].
           split; [discriminate|].
           split; [|intros c' m H _ C'; injection H as <-; congruence].
           intro e. split; [discriminate|].
           intros [(cls & t & H & _)|(c' & m & H & _ & C' & _)];
             [discriminate|].
           injection H as <-. congruence.
      * split; [split; [discriminate|]|].
        { intros (c' & o & r & H & _ & C' & _). injection H as <-. congruence. }
        split; [intros c' H L; injection H as <-; lia|].
        split; [discriminate|].
        split; [|intros c' m H _ _; injection H as <-; reflexivity].
        intro e. split.
        -- intro H. injection H as <-. right. exists c, message. auto.
        -- intros [(cls & t & H & _)|(c' & m & H & _ & C' & ->)];
             [discriminate|].
           injection H as <-. congruence.
Qed.

(** X2.  Whenever [health_check] answers, it says "healthy", names [/tmp]
    and 50 MB, and passes on the report on the engine, be it [True] or
    [False]: the status does not depend on the engine.  It answers unless
    [check_spleeter_installation] raises, and then it raises the same: an
    error of starting [spleeter --help] other than [FileNotFoundError],
    with the world as it was, or the [UnicodeDecodeError] for output that
    does not decode, with the child that has exited in the process
    table. *)
Theorem health_check_report E w :
  (exists w',
     health_check E w
     = (Return (mkHealth "healthy"
                  (match fst (check_spleeter_installation E w) with
                   | Return b => b
                   | Raise _ => false
                   end) "/tmp" 50), w')
     /\ w' = snd (check_spleeter_installation E w))
  \/ (exists cls text,
        spleeter E ["spleeter"; "--help"] = SpawnError cls text
        /\ cls <> "FileNotFoundError"
        /\ health_check E w = (Raise (PyError cls text), w))
  \/ (exists c message,
        spleeter E ["spleeter"; "--help"] = Spawned c
        /\ elapsed c <= 10 /\ captured E c = inr message
        /\ health_check E w
           = (Raise (PyError "UnicodeDecodeError" message),
              ran w TEMP_DIR c ["spleeter"; "--help"] (Exited (returncode c)))).
Proof.
  unfold health_check, bind.
  destruct (check_spleeter_installation E w) as [[b|e] w'] eqn:C.
  - left. exists w'. split; reflexivity.
  - right. rewrite check_spleeter_installation_eq in C.
    destruct (spleeter E _) as [cls text|c].
    + destruct (String.eqb cls "FileNotFoundError") eqn:F; [discriminate|].
      apply String.eqb_neq in F. injection C as <- <-.
      left. exists cls, text. auto.
    + destruct (10 <? elapsed c) eqn:T; [discriminate|].
      apply Z.ltb_ge in T. cbv zeta in C.
      destruct (captured E c) as [[out err]|message] eqn:Cp; [discriminate|].
      injection C as <- <-. right. exists c, message. auto.
Qed.

(* ================================================================= *)
(** ** More on the size checks *)

Lemma unsupported_is_not_too_large E : unsupported_format E <> file_too_large.
Proof. unfold unsupported_format, file_too_large. simpl. discriminate. Qed.

(** X3.  An upload with an allowed extension whose declared size is over
    the ceiling is rejected with "File too large" on the declaration
    alone: the body is not looked at, however short it is, and the world is
    as it was. *)
Theorem declared_size_rejected_unread E file w n :
  Str.mem (validated_ext file) ALLOWED_EXTENSIONS = true ->
  size file = Some n ->
  MAX_FILE_SIZE < n ->
  separate_audio E file w = (Raise file_too_large, w)
  /\ forall content,
       separate_audio E (mkUpload (filename file) (size file) content) w
       = (Raise file_too_large, w).
Proof.
  intros X S L.
  assert (D : forall content,
             declared_too_large (mkUpload (filename file) (size file) content)
             = true).
  { intro content. unfold declared_too_large. cbn [size]. rewrite S.
    replace (MAX_FILE_SIZE <? n) with true by (symmetry; apply Z.ltb_lt; exact L).
    replace (n =? 0) with false; [reflexivity|].
    symmetry. apply Z.eqb_neq. unfold MAX_FILE_SIZE in L. lia. }
  assert (G : forall content,
             separate_audio E (mkUpload (filename file) (size file) content) w
             = (Raise file_too_large, w)).
  { intro content. unfold separate_audio, bind at 1.
    rewrite validate_audio_file_eq.
    change (validated_ext (mkUpload (filename file) (size file) content))
      with (validated_ext file).
    rewrite X, D. reflexivity. }
  split; [|exact G].
  destruct file as [fn sz bd]. apply (G bd).
Qed.

Lemma declared_size_witness :
  separate_audio Sample.good_env Sample.overstated Sample.empty_world
  = (Raise file_too_large, Sample.empty_world).
Proof.
  refine (proj1 (declared_size_rejected_unread Sample.good_env
                   Sample.overstated Sample.empty_world (MAX_FILE_SIZE + 1)
                   eq_refl eq_refl _)).
  lia.
Defined.

Lemma guarded_not_too_large E file w :
  too_large file = false -> fst (guarded E file w) <> Raise file_too_large.
Proof.
  intro L. rewrite guarded_eq, L.
  destruct (input_path_below (uuid4 E) file) as (x & q & I). rewrite I.
  destruct (write_bytes_cases E (session_dir (uuid4 E)) x q (body file) w)
    as (r & w2 & W & R & _).
  rewrite W. destruct R as [->|(cls & text & ->)].
  - rewrite <- I.
    match goal with
    | |- context [run_spleeter_separation E ?i ?o ?w0] =>
        destruct (run_spleeter_separation_cases E i o w0)
          as (r & w3 & RS & _ & _ & Sh)
    end.
    rewrite RS. destruct Sh as [->|[->|(d & ->)]]; discriminate.
  - discriminate.
Qed.

(** X4.  The ceiling itself is allowed.  When the client declares no size,
    or one up to the ceiling, and the body has up to [MAX_FILE_SIZE] bytes,
    the upload is never answered "File too large". *)
Theorem size_at_the_ceiling_passes E file w :
  (size file = None \/ exists n, size file = Some n /\ n <= MAX_FILE_SIZE) ->
  Z.of_nat (List.length (body file)) <= MAX_FILE_SIZE ->
  fst (separate_audio E file w) <> Raise file_too_large.
Proof.
  intros D L.
  assert (D' : declared_too_large file = false).
  { unfold declared_too_large. destruct D as [->|(n & -> & H)]; [reflexivity|].
    replace (MAX_FILE_SIZE <? n) with false by (symmetry; apply Z.ltb_ge; exact H).
    apply andb_false_r. }
  assert (L' : too_large file = false) by (apply Z.ltb_ge; exact L).
  rewrite separate_audio_fst, validate_audio_file_eq, D'.
  destruct (negb _).
  - intro H. apply (unsupported_is_not_too_large E). congruence.
  - destruct (mkdir_exist_ok_cases (session_dir (uuid4 E)) w)
      as [(w1 & -> & _)|(cls & text & ->)].
    + apply guarded_not_too_large. exact L'.
    + discriminate.
Qed.

Lemma size_at_the_ceiling_witness :
  fst (separate_audio Sample.good_env
         (mkUpload (Some "full.mp3") (Some MAX_FILE_SIZE)
            (Sample.zeros MAX_FILE_SIZE))
         Sample.empty_world)
  <> Raise file_too_large.
Proof.
  apply (size_at_the_ceiling_passes Sample.good_env
           (mkUpload (Some "full.mp3") (Some MAX_FILE_SIZE)
              (Sample.zeros MAX_FILE_SIZE))
           Sample.empty_world).
  - right. exists MAX_FILE_SIZE. split; [reflexivity|lia].
  - cbn [body]. rewrite zeros_length; [lia|]. unfold MAX_FILE_SIZE. lia.
Defined.

(* ================================================================= *)
(** ** More on the engine run *)

(** X5.  A run returns the two expected paths exactly when the engine
    started, ended within 300 seconds, wrote output that decodes, exited
    with status zero and both files are there afterwards.  In every other
    case it raises an [HTTPException], 408 for the timeout and 500 "Audio
    separation failed: ..." otherwise: no other exception leaves the
    function. *)
Theorem run_succeeds_exactly_when E input_file output_dir w :
  (fst (run_spleeter_separation E input_file output_dir w)
   = Return (vocals_path input_file output_dir,
             accompaniment_path input_file output_dir)
   <-> exists c out err,
         spleeter E (spleeter_cmd input_file output_dir) = Spawned c
         /\ elapsed c <= 300 /\ captured E c = inl (out, err)
         /\ returncode c = 0
         /\ exists_ (vocals_path input_file output_dir)
                    (alter output_dir (writes c) (fs w)) = true
         /\ exists_ (accompaniment_path input_file output_dir)
                    (alter output_dir (writes c) (fs w)) = true)
  /\ (fst (run_spleeter_separation E input_file output_dir w)
      = Return (vocals_path input_file output_dir,
                accompaniment_path input_file output_dir)
      \/ fst (run_spleeter_separation E input_file output_dir w)
         = Raise processing_timeout
      \/ exists text,
           fst (run_spleeter_separation E input_file output_dir w)
           = Raise (HTTPException 500 ("Audio separation failed: " ++ text))).
Proof.
  rewrite run_spleeter_separation_eq. cbv zeta. unfold wrapped.
  destruct (spleeter E _) as [cls text|c].
  { split; [split; [discriminate|intros (c & o & r & H & _); discriminate]|].
    right. right. eexists. reflexivity. }
  destruct (300 <? elapsed c) eqn:T.
  { apply Z.ltb_lt in T. split; [split; [discriminate|]|right; left; reflexivity].
    intros (c' & o & r & H & L & _). injection H as <-. lia. }
  apply Z.ltb_ge in T.
  destruct (captured E c) as [[out err]|message] eqn:C.
  2: { split; [split; [discriminate|]|right; right; eexists; reflexivity].
       intros (c' & o & r & H & _ & C' & _). injection H as <-. congruence. }
  destruct (returncode c =? 0) eqn:R; cbn [negb].
  2: { apply Z.eqb_neq in R. split; [split; [discriminate|]|].
       - intros (c' & o & r & H & _ & _ & Z & _). injection H as <-.
         contradiction.
       - right. right. eexists. reflexivity. }
  apply Z.eqb_eq in R. cbn [ran fs logged].
  destruct (exists_ (vocals_path _ _) _) eqn:V;
    destruct (exists_ (accompaniment_path _ _) _) eqn:A; cbn [negb orb fst].
  - split; [|left; reflexivity]. split; [|reflexivity].
    intros _. exists c, out, err. repeat split; assumption.
  - split; [split; [discriminate|]|right; right; eexists; reflexivity].
    intros (c' & o & r & H & _ & _ & _ & _ & A'). injection H as <-. congruence.
  - split; [split; [discriminate|]|right; right; eexists; reflexivity].
    intros (c' & o & r & H & _ & _ & _ & V' & _). injection H as <-. congruence.
  - split; [split; [discriminate|]|right; right; eexists; reflexivity].
    intros (c' & o & r & H & _ & _ & _ & V' & _). injection H as <-. congruence.
Qed.

(** X6.  When the engine exits in time with a status other than zero, the
    process table gains the one exited process, and what is answered
    depends on whether its output decodes.  If it does, the error raised
    for the exit status is taken by the catch-all clause as well: the
    detail is "Audio separation failed: " around [str] of the error that
    carries the engine's stderr, and the failure is logged twice at level
    ERROR, once with the stderr and once with that [str].  If it does not,
    the exit status is never looked at: the detail is "Audio separation
    failed: " and the text of the [UnicodeDecodeError], logged once. *)
Theorem engine_failure_is_wrapped_twice E input_file output_dir w c :
  spleeter E (spleeter_cmd input_file output_dir) = Spawned c ->
  elapsed c <= 300 ->
  returncode c <> 0 ->
  procs (snd (run_spleeter_separation E input_file output_dir w))
  = (procs w ++ [(spleeter_cmd input_file output_dir,
                  Exited (returncode c))])%list
  /\ (forall out err,
        captured E c = inl (out, err) ->
        fst (run_spleeter_separation E input_file output_dir w)
        = Raise (HTTPException 500
                   ("Audio separation failed: "
                      ++ http_str E 500 ("Audio separation failed: " ++ err)))
        /\ log (snd (run_spleeter_separation E input_file output_dir w))
           = (log w
                ++ [(INFO, ("Running Spleeter command: "
                              ++ Str.join " "
                                   (spleeter_cmd input_file output_dir))%string);
                    (ERROR, ("Spleeter failed: " ++ err)%string);
                    (ERROR, ("Spleeter separation error: "
                               ++ http_str E 500
                                    ("Audio separation failed: " ++ err))%string)])%list)
  /\ (forall message,
        captured E c = inr message ->
        fst (run_spleeter_separation E input_file output_dir w)
        = Raise (HTTPException 500 ("Audio separation failed: " ++ message))
        /\ log (snd (run_spleeter_separation E input_file output_dir w))
           = (log w
                ++ [(INFO, ("Running Spleeter command: "
                              ++ Str.join " "
                                   (spleeter_cmd input_file output_dir))%string);
                    (ERROR, ("Spleeter separation error: "
                               ++ message)%string)])%list).
Proof.
  intros S T Z. rewrite run_spleeter_separation_eq. cbv zeta. rewrite S.
  replace (300 <? elapsed c) with false by (symmetry; apply Z.ltb_ge; lia).
  replace (returncode c =? 0) with false by (symmetry; apply Z.eqb_neq; exact Z).
  destruct (captured E c) as [[out err]|message];
    cbn [negb fst snd logged ran log procs str wrapped].
  - split; [reflexivity|]. split; [|discriminate].
    intros o r H. injection H as <- <-.
    split; [reflexivity|]. rewrite <- !app_assoc. reflexivity.
  - split; [reflexivity|]. split; [discriminate|].
    intros m H. injection H as <-.
    split; [reflexivity|]. rewrite <- !app_assoc. reflexivity.
Qed.

Lemma engine_failure_witness :
  fst (run_spleeter_separation (Sample.env_of Sample.failing_child)
         (input_path Sample.sid Sample.song) (session_dir Sample.sid)
         Sample.saved_world)
  = Raise (HTTPException 500
             "Audio separation failed: 500: Audio separation failed: ffprobe error").
Proof.
  refine (proj1 (proj1 (proj2 (engine_failure_is_wrapped_twice
                                 (Sample.env_of Sample.failing_child)
                                 (input_path Sample.sid Sample.song)
                                 (session_dir Sample.sid) Sample.saved_world
                                 Sample.failing_child eq_refl _ _))
                   "" "ffprobe error" eq_refl)).
  - vm_compute. discriminate.
  - vm_compute. discriminate.
Defined.

(** Such a run on the sample data: the engine exits with status zero in
    time and leaves both stems, and the run is answered 500 for the byte
    in its diagnostics; the check of the installation raises for it. *)
Example undecodable_output_fails_the_run :
  let E := Sample.env_of Sample.garbled_child in
  let i := input_path Sample.sid Sample.song in
  let o := session_dir Sample.sid in
  fst (run_spleeter_separation E i o Sample.saved_world)
  = Raise (HTTPException 500
             "Audio separation failed: 'ascii' codec can't decode byte 0xff in position 0: ordinal not in range(128)")
  /\ exists_ (vocals_path i o)
        (fs (snd (run_spleeter_separation E i o Sample.saved_world))) = true
  /\ exists_ (accompaniment_path i o)
        (fs (snd (run_spleeter_separation E i o Sample.saved_world))) = true
  /\ fst (check_spleeter_installation E Sample.empty_world)
     = Raise (PyError "UnicodeDecodeError"
                "'ascii' codec can't decode byte 0xff in position 0: ordinal not in range(128)").
Proof. cbv zeta. repeat split; vm_compute; reflexivity. Qed.

(** X7.  When the engine cannot be started, the run fails with 500 "Audio
    separation failed: " and the text of the error; no process is in the
    table and the file tree is as it was. *)
Theorem engine_not_started E input_file output_dir w cls text :
  spleeter E (spleeter_cmd input_file output_dir) = SpawnError cls text ->
  fst (run_spleeter_separation E input_file output_dir w)
  = Raise (HTTPException 500 ("Audio separation failed: " ++ text))
  /\ fs (snd (run_spleeter_separation E input_file output_dir w)) = fs w
  /\ procs (snd (run_spleeter_separation E input_file output_dir w)) = procs w.
Proof.
  intro S. rewrite run_spleeter_separation_eq. cbv zeta. rewrite S.
  repeat split.
Qed.

Lemma engine_not_started_witness :
  fst (run_spleeter_separation Sample.no_engine_env
         (input_path Sample.sid Sample.song) (session_dir Sample.sid)
         Sample.saved_world)
  = Raise (HTTPException 500
             "Audio separation failed: [Errno 2] No such file or directory: 'spleeter'").
Proof.
  refine (proj1 (engine_not_started Sample.no_engine_env
                   (input_path Sample.sid Sample.song)
                   (session_dir Sample.sid) Sample.saved_world
                   "FileNotFoundError"
                   "[Errno 2] No such file or directory: 'spleeter'" eq_refl)).
Defined.

(* ================================================================= *)
(** ** More on download and cleanup *)

(** X8.  [download_track] only reads: whatever it answers, the file tree,
    the process table and the log are as they were. *)
Theorem download_track_reads_only session_id track_type w :
  snd (download_track session_id track_type w) = w.
Proof.
  unfold download_track, iterdir. monad_unfold.
  destruct (negb (Str.mem track_type _)); [reflexivity|]. cbv beta.
  destruct (exists_ (session_dir session_id) (fs w)); cbn [negb]; cbv beta;
    [|reflexivity].
  destruct (get (session_dir session_id) (fs w)) as [[c|es]|];
    try reflexivity.
  destruct (filter _ _) as [|output_dir rest]; [reflexivity|].
  destruct (String.eqb track_type "vocals"); cbv beta iota;
    destruct (exists_ _ (fs w)); reflexivity.
Qed.



(** X10.  A cleanup that fails leaves the workspace path in place, starts
    no process, and its last log line is an error that names the session:
    the caller can try again. *)
Theorem failed_cleanup_keeps_workspace E session_id w :
  fst (cleanup_session E session_id w) = DeleteError ->
  exists_ (session_dir session_id)
          (fs (snd (cleanup_session E session_id w))) = true
  /\ procs (snd (cleanup_session E session_id w)) = procs w
  /\ exists text,
       last (log (snd (cleanup_session E session_id w))) (INFO, "")
       = (ERROR, "Failed to clean up session " ++ session_id ++ ": " ++ text).
Proof.
  rewrite cleanup_session_eq.
  destruct (get (session_dir session_id) (fs w)) as [[c|es]|] eqn:G.
  - intros _. cbn [fst snd logged fs procs log]. unfold exists_. rewrite G.
    split; [reflexivity|]. split; [reflexivity|]. eexists. apply last_last.
  - destruct (rmtree_fault E) as [[[cls text] remains]|]; [|discriminate].
    intros _. cbn [fst snd logged with_fs fs procs log].
    split; [|split; [reflexivity|eexists; apply last_last]].
    assert (D : is_dir (session_dir session_id) (fs w) = true)
      by (unfold is_dir; rewrite G; reflexivity).
    pose proof (is_dir_alter_below (session_dir session_id) []
                  (fun _ => remains) (fs w) D) as D'.
    rewrite app_nil_r in D'. unfold is_dir in D'. unfold exists_.
    destruct (get _ (alter _ _ _)) as [[|]|]; [discriminate|reflexivity|discriminate].
  - discriminate.
Qed.

Lemma failed_cleanup_witness :
  exists_ (session_dir Sample.sid)
          (fs (snd (cleanup_session Sample.stuck_env Sample.sid
                      Sample.saved_world))) = true.
Proof.
  refine (proj1 (failed_cleanup_keeps_workspace Sample.stuck_env Sample.sid
                   Sample.saved_world eq_refl)).
Defined.

(* ================================================================= *)
(** ** What leaves the upload handler *)



(* ================================================================= *)
(** ** Names and extensions *)

Section Names.

Lemma split_slash_slash_free s : slash_free s = true -> split_slash s = [s].
Proof.
  induction s as [|a s IH]; simpl; [reflexivity|].
  destruct (Ascii.eqb a "/"); simpl; [discriminate|].
  intro H. rewrite IH by assumption. reflexivity.
Qed.

Lemma session_dir_single session_id :
  slash_free session_id = true ->
  session_dir session_id = ["vocal_remover_" ++ session_id].
Proof.
  intro H. unfold session_dir, joinpath, TEMP_DIR, parts.
  rewrite split_slash_slash_free; [reflexivity|]. simpl. exact H.
Qed.

Lemma lower_char_eqb_slash c :
  Ascii.eqb (Str.lower_char c) "/" = Ascii.eqb c "/".
Proof. destruct c as [[] [] [] [] [] [] [] []]; reflexivity. Qed.

Lemma lower_char_eqb_dot c :
  Ascii.eqb (Str.lower_char c) "." = Ascii.eqb c ".".
Proof. destruct c as [[] [] [] [] [] [] [] []]; reflexivity. Qed.

Lemma lower_char_idem c :
  Str.lower_char (Str.lower_char c) = Str.lower_char c.
Proof. destruct c as [[] [] [] [] [] [] [] []]; reflexivity. Qed.

Lemma lower_idem s : Str.lower (Str.lower s) = Str.lower s.
Proof.
  induction s as [|c s IH]; simpl; [reflexivity|].
  rewrite lower_char_idem, IH. reflexivity.
Qed.

Lemma lower_length s : String.length (Str.lower s) = String.length s.
Proof. induction s as [|c s IH]; simpl; congruence. Qed.

Lemma lower_substring n m s :
  substring n m (Str.lower s) = Str.lower (substring n m s).
Proof.
  revert n m. induction s as [|c s IH]; intros [|n] [|m]; simpl;
    try reflexivity; rewrite ?IH; reflexivity.
Qed.

Lemma lower_rfind_dot s : Str.rfind_dot (Str.lower s) = Str.rfind_dot s.
Proof.
  induction s as [|c s IH]; simpl; [reflexivity|].
  rewrite IH, lower_char_eqb_dot. reflexivity.
Qed.

Lemma lower_split_slash s :
  split_slash (Str.lower s) = map Str.lower (split_slash s).
Proof.
  induction s as [|c s IH]; simpl; [reflexivity|].
  rewrite lower_char_eqb_slash, IH.
  destruct (Ascii.eqb c "/"); [reflexivity|].
  destruct (split_slash s); reflexivity.
Qed.

Lemma lower_is_component c : is_component (Str.lower c) = is_component c.
Proof.
  destruct c as [|a r]; [reflexivity|].
  unfold is_component. simpl. rewrite lower_char_eqb_dot.
  destruct r; reflexivity.
Qed.

Lemma lower_parts s : parts (Str.lower s) = map Str.lower (parts s).
Proof.
  unfold parts. rewrite lower_split_slash.
  induction (split_slash s) as [|c l IH]; simpl; [reflexivity|].
  rewrite lower_is_component, IH. destruct (is_component c); reflexivity.
Qed.

Lemma lower_name p : name (map Str.lower p) = Str.lower (name p).
Proof.
  unfold name. induction p as [|c p IH]; [reflexivity|].
  destruct p as [|d p]; [reflexivity|]. exact IH.
Qed.

Lemma lower_suffix p : suffix (map Str.lower p) = Str.lower (suffix p).
Proof.
  unfold suffix, has_suffix.
  rewrite lower_name, lower_rfind_dot, lower_length.
  destruct (Str.rfind_dot (name p)) as [i|]; [|reflexivity].
  destruct ((0 <? i)%nat && (i <? String.length (name p) - 1)%nat);
    [|reflexivity].
  apply lower_substring.
Qed.

Lemma lower_or_else x :
  or_else (option_map Str.lower x) "" = Str.lower (or_else x "").
Proof. destruct x as [[|c s]|]; reflexivity. Qed.

Lemma validated_ext_lower_named file :
  validated_ext (lower_named file) = validated_ext file.
Proof.
  unfold validated_ext, lower_named. cbn [filename].
  rewrite lower_or_else, lower_parts, lower_suffix. apply lower_idem.
Qed.

Lemma lower_char_dot_inv c : Str.lower_char c = "."%char -> c = "."%char.
Proof.
  intro H. apply Ascii.eqb_eq. rewrite <- lower_char_eqb_dot, H. reflexivity.
Qed.

(** A suffix that validation accepts: a dot and three characters that are
    neither dots nor slashes. *)
Lemma allowed_suffix_shape s :
  Str.mem (Str.lower s) ALLOWED_EXTENSIONS = true ->
  exists c1 c2 c3,
    s = String "." (String c1 (String c2 (String c3 EmptyString)))
    /\ (Ascii.eqb c1 "/" = false /\ Ascii.eqb c2 "/" = false
        /\ Ascii.eqb c3 "/" = false)
    /\ (Ascii.eqb c1 "." = false /\ Ascii.eqb c2 "." = false
        /\ Ascii.eqb c3 "." = false).
Proof.
  unfold Str.mem, ALLOWED_EXTENSIONS. simpl existsb. rewrite orb_false_r.
  intro H. apply orb_true_iff in H.
  assert (L : Str.lower s = ".mp3" \/ Str.lower s = ".wav")
    by (destruct H as [H|H]; apply String.eqb_eq in H; auto).
  clear H.
  destruct s as [|c0 [|c1 [|c2 [|c3 [|c4 r]]]]];
    try (destruct L as [L|L]; discriminate L).
  exists c1, c2, c3.
  assert (C0 : Str.lower_char c0 = "."%char)
    by (destruct L as [L|L]; simpl in L; injection L; auto).
  apply lower_char_dot_inv in C0. subst c0. split; [reflexivity|].
  rewrite <- (lower_char_eqb_slash c1), <- (lower_char_eqb_slash c2),
    <- (lower_char_eqb_slash c3), <- (lower_char_eqb_dot c1),
    <- (lower_char_eqb_dot c2), <- (lower_char_eqb_dot c3).
  destruct L as [L|L]; simpl in L; injection L as -> -> ->;
    repeat split; reflexivity.
Qed.

Lemma accepted_has_filename file :
  Str.mem (validated_ext file) ALLOWED_EXTENSIONS = true ->
  or_else (filename file) "audio.mp3" = or_else (filename file) "".
Proof.
  unfold validated_ext. destruct (filename file) as [[|c s]|];
    try reflexivity; discriminate.
Qed.

End Names.

(** X12.  Session ids without a slash, which is all a route parameter can
    hold, have a workspace each: it is the single entry
    [vocal_remover_<id>] of [TEMP_DIR], and two ids share it only when they
    are the same id. *)
Theorem session_workspaces_are_distinct a b :
  slash_free a = true -> slash_free b = true ->
  session_dir a = ["vocal_remover_" ++ a]
  /\ (session_dir a = session_dir b <-> a = b).
Proof.
  intros A B. rewrite (session_dir_single a A), (session_dir_single b B).
  split; [reflexivity|]. split.
  - intro H. injection H as H. exact H.
  - intros ->. reflexivity.
Qed.

Lemma session_workspaces_witness :
  session_dir Sample.sid = ["vocal_remover_" ++ Sample.sid]
  /\ (session_dir Sample.sid = session_dir "other" <-> Sample.sid = "other").
Proof.
  apply (session_workspaces_are_distinct Sample.sid "other"); reflexivity.
Defined.

(** X13.  Validation does not see the case of the filename: an upload is
    validated as the same upload with its filename in lower case is, with
    the same outcome. *)
Theorem validation_ignores_case E file w :
  validated_ext (lower_named file) = validated_ext file
  /\ validate_audio_file E (lower_named file) w = validate_audio_file E file w.
Proof.
  split; [apply validated_ext_lower_named|].
  rewrite !validate_audio_file_eq, validated_ext_lower_named. reflexivity.
Qed.

(** X14.  For an upload that validation accepts, the fallback name
    [audio.mp3] is never used; the input is saved as [input] with the
    suffix of the filename, in the case the client wrote it, directly in
    the workspace; its stem is [input], so the engine is expected to leave
    [input/vocals.wav] and [input/accompaniment.wav] in the workspace. *)
Theorem accepted_upload_paths session_id file :
  Str.mem (validated_ext file) ALLOWED_EXTENSIONS = true ->
  let ext := suffix (parts (or_else (filename file) "")) in
  input_path session_id file
  = (session_dir session_id ++ [("input" ++ ext)%string])%list
  /\ Str.lower ext = validated_ext file
  /\ stem (input_path session_id file) = "input"
  /\ vocals_path (input_path session_id file) (session_dir session_id)
     = (session_dir session_id ++ ["input"; "vocals.wav"])%list
  /\ accompaniment_path (input_path session_id file) (session_dir session_id)
     = (session_dir session_id ++ ["input"; "accompaniment.wav"])%list.
Proof.
  intros A ext.
  assert (I : input_path session_id file
              = (session_dir session_id ++ [("input" ++ ext)%string])%list
              /\ stem (input_path session_id file) = "input").
  { unfold input_path. rewrite (accepted_has_filename file A). fold ext.
    destruct (allowed_suffix_shape ext A)
      as (c1 & c2 & c3 & -> & (S1 & S2 & S3) & (D1 & D2 & D3)).
    assert (P : parts ("input" ++ String "." (String c1 (String c2 (String c3 ""))))
                = ["input" ++ String "." (String c1 (String c2 (String c3 "")))]).
    { unfold parts. simpl. rewrite S1, S2, S3. reflexivity. }
    unfold joinpath. rewrite P. split; [reflexivity|].
    unfold stem, has_suffix.
    replace (name (session_dir session_id
                     ++ [("input" ++ String "." (String c1 (String c2 (String c3 ""))))%string])%list)
      with ("input" ++ String "." (String c1 (String c2 (String c3 ""))))
      by (unfold name; rewrite last_last; reflexivity).
    simpl. rewrite D1, D2, D3. reflexivity. }
  destruct I as [I St]. split; [exact I|]. split; [reflexivity|].
  split; [exact St|].
  unfold vocals_path, accompaniment_path. rewrite St.
  unfold joinpath. rewrite <- !app_assoc. split; reflexivity.
Qed.

Lemma accepted_upload_paths_witness :
  input_path Sample.sid (mkUpload (Some "Song.MP3") None [])
  = (session_dir Sample.sid ++ ["input.MP3"])%list.
Proof.
  refine (proj1 (accepted_upload_paths Sample.sid
                   (mkUpload (Some "Song.MP3") None []) eq_refl)).
Defined.

(* ================================================================= *)
(** ** Upload, download and cleanup together *)

Section Together.

Lemma get_head x q d d' :
  assoc x d = assoc x d' -> get (x :: q) d = get (x :: q) d'.
Proof. intro H. simpl. rewrite H. reflexivity. Qed.

Lemma get_alter_sibling ws a b r es :
  a <> b ->
  get (ws ++ a :: r)%list (alter ws (remove_entry b) es)
  = get (ws ++ a :: r)%list es.
Proof.
  intro N. revert es. induction ws as [|x ws IH]; intro es.
  - simpl. rewrite assoc_remove_entry_other by congruence. reflexivity.
  - simpl. rewrite assoc_update_first_same.
    destruct (assoc x es) as [[c|sub]|]; simpl; try reflexivity.
    apply IH.
Qed.

Lemma assoc_remove_other x q y d :
  x <> y -> assoc y (remove (x :: q) d) = assoc y d.
Proof.
  intro N. unfold remove. destruct q as [|z q].
  - simpl. apply assoc_remove_entry_other. exact N.
  - change (parent (x :: z :: q)) with (x :: parent (z :: q)).
    apply assoc_alter_other. exact N.
Qed.

Lemma remove_entry_absent x es : assoc x es = None -> remove_entry x es = es.
Proof.
  induction es as [|[k v] r IH]; simpl; [reflexivity|].
  destruct (String.eqb k x); [discriminate|].
  intro H. simpl. rewrite IH by assumption. reflexivity.
Qed.

Lemma remove_entry_last x v es :
  assoc x es = None -> remove_entry x (es ++ [(x, v)])%list = es.
Proof.
  intro H. unfold remove_entry. rewrite filter_app. simpl.
  rewrite String.eqb_refl. simpl. rewrite app_nil_r.
  apply remove_entry_absent. exact H.
Qed.

Lemma update_first_last x g v es :
  assoc x es = None ->
  update_first x g (es ++ [(x, v)])%list = (es ++ [(x, g v)])%list.
Proof.
  induction es as [|[k u] r IH]; simpl.
  - rewrite String.eqb_refl. reflexivity.
  - destruct (String.eqb k x); [discriminate|].
    intro H. rewrite IH by assumption. reflexivity.
Qed.

(** Changes below a last entry leave the entries before it. *)
Lemma touched_last x v es d :
  assoc x es = None ->
  touched_below [x] (es ++ [(x, v)])%list d ->
  exists v', d = (es ++ [(x, v')])%list.
Proof.
  intros A T. induction T as [|d' q f _ IH].
  - eauto.
  - destruct IH as (v' & ->). simpl. rewrite update_first_last by exact A.
    eauto.
Qed.

Lemma get_single_none x es : get [x] es = None -> assoc x es = None.
Proof. simpl. destruct (assoc x es) as [[c|sub]|]; [discriminate|discriminate|auto]. Qed.

(** The engine run that succeeded. *)
Lemma run_success_facts E input_file output_dir w v a :
  fst (run_spleeter_separation E input_file output_dir w) = Return (v, a) ->
  exists_ (vocals_path input_file output_dir)
          (fs (snd (run_spleeter_separation E input_file output_dir w))) = true
  /\ exists_ (accompaniment_path input_file output_dir)
             (fs (snd (run_spleeter_separation E input_file output_dir w)))
     = true
  /\ procs (snd (run_spleeter_separation E input_file output_dir w))
     = (procs w ++ [(spleeter_cmd input_file output_dir, Exited 0)])%list.
Proof.
  rewrite run_spleeter_separation_eq. cbv zeta.
  destruct (spleeter E _) as [cls text|c]; [discriminate|].
  destruct (300 <? elapsed c); [discriminate|].
  destruct (captured E c) as [[out err]|message]; [|discriminate].
  destruct (returncode c =? 0) eqn:R; cbn [negb]; [|discriminate].
  apply Z.eqb_eq in R.
  destruct (exists_ (vocals_path _ _) _) eqn:V;
    destruct (exists_ (accompaniment_path _ _) _) eqn:A;
    cbn [negb orb fst snd]; try discriminate.
  intros _. rewrite V, A. cbn [ran logged procs]. rewrite R. auto.
Qed.

(** The upload that succeeded. *)
Lemma upload_success_facts E file w r :
  fst (separate_audio E file w) = Return r ->
  r = separated E file
  /\ Str.mem (validated_ext file) ALLOWED_EXTENSIONS = true
  /\ procs (snd (separate_audio E file w))
     = (procs w ++ [(spleeter_cmd (input_path (uuid4 E) file)
                       (session_dir (uuid4 E)), Exited 0)])%list
  /\ is_dir (session_dir (uuid4 E)) (fs (snd (separate_audio E file w))) = true
  /\ exists_ (session_dir (uuid4 E) ++ ["input"; "vocals.wav"])%list
             (fs (snd (separate_audio E file w))) = true
  /\ exists_ (session_dir (uuid4 E) ++ ["input"; "accompaniment.wav"])%list
             (fs (snd (separate_audio E file w))) = true.
Proof.
  intro F.
  destruct (separate_audio_entry E file w) as [R|(e & S & _)];
    [|rewrite S in F; discriminate].
  assert (A : Str.mem (validated_ext file) ALLOWED_EXTENSIONS = true).
  { destruct R as [V _]. rewrite validate_audio_file_eq in V.
    destruct (Str.mem _ _); [reflexivity|discriminate]. }
  destruct (separate_audio_ready E file w R)
    as (w1 & r' & w2 & w3 & Mk & G & Fi & S).
  rewrite S in *. cbn [fst snd] in *. subst r'.
  destruct (mkdir_exist_ok_cases (session_dir (uuid4 E)) w)
    as [(w1' & Mk' & D1 & P1 & _)|(cls & text & Mk')];
    rewrite Mk in Mk'; [|discriminate].
  injection Mk' as <-.
  destruct (guarded_cases E file w1) as (r' & w2' & G' & T2 & _ & _).
  rewrite G in G'. injection G' as _ <-.
  destruct (separate_finally_cases E file w2) as (w3' & Fi' & T3 & P3).
  rewrite Fi in Fi'. injection Fi' as <-.
  assert (D3 : is_dir (session_dir (uuid4 E)) (fs w3) = true).
  { eapply touched_is_dir; [|exact D1]. eapply touched_trans; eassumption. }
  (* the guarded block ended in the run *)
  pose proof G as G0. rewrite guarded_eq in G0.
  destruct (too_large file); [discriminate|].
  destruct (input_path_below (uuid4 E) file) as (x & q & I).
  destruct (write_bytes_cases E (session_dir (uuid4 E)) x q (body file) w1)
    as (rw & ww & W & Rw & _ & Pw & _).
  rewrite I in G0. rewrite W in G0. rewrite <- I in G0.
  destruct Rw as [->|(cls & text & ->)]; [|discriminate].
  match type of G0 with
  | context [run_spleeter_separation E ?i ?o ?w0] =>
      destruct (run_spleeter_separation_cases E i o w0)
        as (rr & wr & Run & _ & _ & Sh);
      pose proof (run_success_facts E i o w0) as RF
  end.
  rewrite Run in RF, G0. cbn [fst snd logged procs] in RF.
  destruct Sh as [->|[->|(d & ->)]]; try discriminate G0.
  destruct (RF _ _ eq_refl) as (V & Ac & Pr). injection G0 as <- <-.
  destruct (accepted_upload_paths (uuid4 E) file A) as (Ip & _ & _ & Vp & Ap).
  rewrite Vp in V. rewrite Ap in Ac.
  split; [reflexivity|]. split; [exact A|].
  split; [rewrite P3, Pr, Pw, P1; reflexivity|].
  split; [exact D3|].
  assert (Keep : forall r0,
             get (session_dir (uuid4 E) ++ "input" :: r0)%list (fs w3)
             = get (session_dir (uuid4 E) ++ "input" :: r0)%list (fs wr)).
  { intro r0.
    destruct (separate_finally_fs E (input_path (uuid4 E) file) wr) as [H|H];
      rewrite Fi in H; cbn [snd] in H; rewrite H; [reflexivity|].
    rewrite Ip, remove_below.
    change (parent [("input" ++ suffix (parts (or_else (filename file) "")))%string])
      with (@nil string).
    rewrite app_nil_r. apply get_alter_sibling.
    change (name [("input" ++ suffix (parts (or_else (filename file) "")))%string])
      with ("input" ++ suffix (parts (or_else (filename file) ""))).
    destruct (allowed_suffix_shape _ A) as (c1 & c2 & c3 & -> & _).
    discriminate. }
  unfold exists_ in *. rewrite !Keep. split; assumption.
Qed.

(** What [download_track] answers depends on the workspace alone. *)
Lemma download_track_agree session_id track_type w w' :
  (forall q, get (session_dir session_id ++ q)%list (fs w)
             = get (session_dir session_id ++ q)%list (fs w')) ->
  fst (download_track session_id track_type w)
  = fst (download_track session_id track_type w').
Proof.
  intro H.
  assert (H0 := H []). rewrite app_nil_r in H0.
  destruct (Str.mem track_type ["vocals"; "instrumental"]) eqn:V.
  2: { unfold download_track. rewrite V. reflexivity. }
  destruct (get (session_dir session_id) (fs w)) as [[c|es]|] eqn:G.
  - unfold download_track, iterdir. rewrite V. monad_unfold. unfold exists_.
    cbn [negb]. cbv beta. rewrite G, <- H0. cbn [negb]. cbv beta.
    rewrite G, <- H0. reflexivity.
  - rewrite (download_track_eq _ _ w es V G).
    rewrite (download_track_eq _ _ w' es V) by (symmetry; exact H0).
    assert (O : output_dirs session_id es w = output_dirs session_id es w').
    { unfold output_dirs. apply filter_ext_in. intros d In.
      apply in_map_iff in In. destruct In as (kv & <- & _).
      unfold is_dir. rewrite H. reflexivity. }
    rewrite <- O.
    destruct (output_dirs session_id es w) as [|d rest] eqn:Os; [reflexivity|].
    assert (In d (output_dirs session_id es w)) as In by (rewrite Os; left; reflexivity).
    unfold output_dirs in In. apply filter_In in In. destruct In as [In _].
    apply in_map_iff in In. destruct In as (kv & <- & _).
    unfold exists_, joinpath. rewrite <- !app_assoc, H.
    match goal with
    | |- context [if ?b then _ else _] => destruct b
    end; reflexivity.
  - unfold download_track, iterdir. rewrite V. monad_unfold. unfold exists_.
    cbn [negb]. cbv beta. rewrite G, <- H0. reflexivity.
Qed.

(** What an upload leaves alone. *)
Lemma separate_audio_frame E file w y :
  y <> hd "" (session_dir (uuid4 E)) ->
  assoc y (fs (snd (separate_audio E file w))) = assoc y (fs w).
Proof.
  intro N.
  destruct (separate_audio_entry E file w) as [R|(e & S & _)];
    [|rewrite S; reflexivity].
  destruct (separate_audio_ready E file w R)
    as (w1 & r & w2 & w3 & Mk & G & Fi & S).
  rewrite S. cbn [snd].
  destruct (mkdir_exist_ok_cases (session_dir (uuid4 E)) w)
    as [(w1' & Mk' & _ & _ & _ & Fs1)|(cls & text & Mk')];
    rewrite Mk in Mk'; [|discriminate].
  injection Mk' as <-.
  destruct (guarded_cases E file w1) as (r' & w2' & G' & T2 & _).
  rewrite G in G'. injection G' as _ <-.
  destruct (separate_finally_cases E file w2) as (w3' & Fi' & T3 & _).
  rewrite Fi in Fi'. injection Fi' as <-.
  destruct (session_dir_cons (uuid4 E)) as (x & q & Ws).
  rewrite Ws in *. cbn [hd] in N.
  assert (N' : x <> y) by congruence.
  rewrite (touched_frame x q (fs w1) (fs w3) y
             (touched_trans _ _ _ _ T2 T3) N').
  destruct Fs1 as [->| ->]; [reflexivity|].
  apply assoc_put_other. exact N'.
Qed.

(** What a cleanup leaves alone. *)
Lemma cleanup_session_frame E session_id w y :
  y <> hd "" (session_dir session_id) ->
  assoc y (fs (snd (cleanup_session E session_id w))) = assoc y (fs w).
Proof.
  intro N. rewrite cleanup_session_eq.
  destruct (session_dir_cons session_id) as (x & q & Ws).
  rewrite Ws in *. cbn [hd] in N.
  assert (N' : x <> y) by congruence.
  destruct (get (x :: q) (fs w)) as [[c|es]|]; try reflexivity.
  destruct (rmtree_fault E) as [[[cls text] remains]|];
    cbn [snd logged with_fs fs].
  - apply assoc_alter_other. exact N'.
  - apply assoc_remove_other. exact N'.
Qed.

Lemma other_session_agrees a b d d' :
  slash_free a = true -> slash_free b = true -> a <> b ->
  (forall y, y <> hd "" (session_dir b) -> assoc y d' = assoc y d) ->
  forall q, get (session_dir a ++ q)%list d' = get (session_dir a ++ q)%list d.
Proof.
  intros A B N H q.
  rewrite (session_dir_single a A) in *. rewrite (session_dir_single b B) in H.
  cbn [hd] in H. simpl app. apply get_head. apply H.
  intro K. apply N. simpl in K. injection K as K. exact K.
Qed.

End Together.

(** X15.  An upload that succeeds has passed validation, has run the engine
    once, to an exit with status zero, and leaves a workspace that holds
    [input/vocals.wav] and [input/accompaniment.wav]: removing the input
    does not take them away.  Its answer carries the session id and the two
    handles [/download/<id>/vocals] and [/download/<id>/instrumental]. *)
Theorem successful_upload_leaves_both_stems E file w r :
  fst (separate_audio E file w) = Return r ->
  r = Separated (uuid4 E)
        ("/download/" ++ uuid4 E ++ "/vocals")
        ("/download/" ++ uuid4 E ++ "/instrumental")
        (filename file) "Separation completed successfully"
  /\ Str.mem (validated_ext file) ALLOWED_EXTENSIONS = true
  /\ procs (snd (separate_audio E file w))
     = (procs w ++ [(spleeter_cmd (input_path (uuid4 E) file)
                       (session_dir (uuid4 E)), Exited 0)])%list
  /\ exists_ (session_dir (uuid4 E) ++ ["input"; "vocals.wav"])%list
             (fs (snd (separate_audio E file w))) = true
  /\ exists_ (session_dir (uuid4 E) ++ ["input"; "accompaniment.wav"])%list
             (fs (snd (separate_audio E file w))) = true.
Proof.
  intro F.
  destruct (upload_success_facts E file w r F) as (R & A & P & _ & V & Ac).
  repeat split; assumption.
Qed.

Lemma successful_upload_witness :
  exists_ (session_dir Sample.sid ++ ["input"; "vocals.wav"])%list
          (fs (snd (separate_audio Sample.good_env Sample.song
                      Sample.empty_world))) = true.
Proof.
  refine (proj1 (proj2 (proj2 (proj2
            (successful_upload_leaves_both_stems Sample.good_env Sample.song
               Sample.empty_world _ eq_refl))))).
Defined.

(** X16.  After an upload that succeeded, when the directory [input] is the
    first subdirectory the listing of the workspace shows, both handles of
    the answer resolve: the vocals to [input/vocals.wav], sent as
    [vocals.wav], and the instrumental to [input/accompaniment.wav], sent
    as [instrumental.wav]. *)
Theorem download_after_successful_upload E file w r :
  fst (separate_audio E file w) = Return r ->
  first_output_dir (uuid4 E) (snd (separate_audio E file w))
  = Some (session_dir (uuid4 E) ++ ["input"])%list ->
  fst (download_track (uuid4 E) "vocals" (snd (separate_audio E file w)))
  = Return (FileResponse
              (path_str (session_dir (uuid4 E) ++ ["input"; "vocals.wav"])%list)
              "vocals.wav" "audio/wav")
  /\ fst (download_track (uuid4 E) "instrumental"
            (snd (separate_audio E file w)))
     = Return (FileResponse
                 (path_str (session_dir (uuid4 E)
                              ++ ["input"; "accompaniment.wav"])%list)
                 "instrumental.wav" "audio/wav").
Proof.
  intros F O.
  destruct (upload_success_facts E file w r F) as (_ & _ & _ & _ & V & Ac).
  unfold first_output_dir in O.
  destruct (get (session_dir (uuid4 E)) (fs (snd (separate_audio E file w))))
    as [[c|es]|] eqn:G; try discriminate.
  destruct (output_dirs (uuid4 E) es (snd (separate_audio E file w)))
    as [|d rest] eqn:Os; [discriminate|].
  injection O as ->.
  split.
  - rewrite (download_track_eq _ "vocals" _ es eq_refl G), Os.
    change ((session_dir (uuid4 E) ++ ["input"])%list // stem_file "vocals")
      with ((session_dir (uuid4 E) ++ ["input"]) ++ ["vocals.wav"])%list.
    rewrite <- app_assoc. cbn [app]. rewrite V. reflexivity.
  - rewrite (download_track_eq _ "instrumental" _ es eq_refl G), Os.
    change ((session_dir (uuid4 E) ++ ["input"])%list // stem_file "instrumental")
      with ((session_dir (uuid4 E) ++ ["input"]) ++ ["accompaniment.wav"])%list.
    rewrite <- app_assoc. cbn [app]. rewrite Ac. reflexivity.
Qed.

Lemma download_after_upload_witness :
  fst (download_track Sample.sid "vocals"
         (snd (separate_audio Sample.good_env Sample.song Sample.empty_world)))
  = Return (FileResponse
              (path_str (session_dir Sample.sid ++ ["input"; "vocals.wav"])%list)
              "vocals.wav" "audio/wav").
Proof.
  refine (proj1 (download_after_successful_upload Sample.good_env Sample.song
                   Sample.empty_world _ eq_refl eq_refl)).
Defined.

(** X17.  An upload does not reach into another session: for slash-free
    ids, whatever the upload does and however it ends, every download
    request for another session id is answered as it was before. *)
Theorem upload_leaves_other_sessions E file w other track_type :
  slash_free other = true ->
  slash_free (uuid4 E) = true ->
  other <> uuid4 E ->
  fst (download_track other track_type (snd (separate_audio E file w)))
  = fst (download_track other track_type w).
Proof.
  intros A B N. apply download_track_agree.
  apply (other_session_agrees other (uuid4 E) (fs w) _ A B N).
  intros y Y. apply separate_audio_frame. exact Y.
Qed.

Lemma upload_leaves_other_sessions_witness :
  fst (download_track "other" "vocals"
         (snd (separate_audio (Sample.env_of Sample.failing_child)
                 Sample.song Sample.two_sessions)))
  = fst (download_track "other" "vocals" Sample.two_sessions).
Proof.
  apply (upload_leaves_other_sessions (Sample.env_of Sample.failing_child)
           Sample.song Sample.two_sessions "other" "vocals").
  - reflexivity.
  - reflexivity.
  - discriminate.
Defined.

(** X18.  Nor does a cleanup: for slash-free ids, after the cleanup of one
    session, failed or not, every download request for another session id
    is answered as it was before. *)
Theorem cleanup_leaves_other_sessions E session_id w other track_type :
  slash_free other = true ->
  slash_free session_id = true ->
  other <> session_id ->
  fst (download_track other track_type (snd (cleanup_session E session_id w)))
  = fst (download_track other track_type w).
Proof.
  intros A B N. apply download_track_agree.
  apply (other_session_agrees other session_id (fs w) _ A B N).
  intros y Y. apply cleanup_session_frame. exact Y.
Qed.

Lemma cleanup_leaves_other_sessions_witness :
  fst (download_track "other" "instrumental"
         (snd (cleanup_session Sample.good_env Sample.sid Sample.two_sessions)))
  = fst (download_track "other" "instrumental" Sample.two_sessions).
Proof.
  apply (cleanup_leaves_other_sessions Sample.good_env Sample.sid
           Sample.two_sessions "other" "instrumental").
  - reflexivity.
  - reflexivity.
  - discriminate.
Defined.

(** X19.  Upload and cleanup undo each other on disk.  When the session id
    is slash-free and new to [TEMP_DIR], then after the upload, however it
    ended, a cleanup of that id whose delete does not fail leaves the file
    tree exactly as it was before the upload. *)
Theorem upload_then_cleanup_restores_tree E E' file w :
  slash_free (uuid4 E) = true ->
  get (session_dir (uuid4 E)) (fs w) = None ->
  rmtree_fault E' = None ->
  fs (snd (cleanup_session E' (uuid4 E) (snd (separate_audio E file w))))
  = fs w.
Proof.
  intros Sf Fresh NoFault.
  assert (Absent : forall w0, fs w0 = fs w ->
            fs (snd (cleanup_session E' (uuid4 E) w0)) = fs w).
  { intros w0 H. rewrite cleanup_session_eq, H, Fresh. exact H. }
  destruct (separate_audio_entry E file w) as [R|(e & S & _)];
    [|rewrite S; apply Absent; reflexivity].
  destruct (separate_audio_ready E file w R)
    as (w1 & r & w2 & w3 & Mk & G & Fi & S).
  rewrite S. cbn [snd].
  destruct (mkdir_exist_ok_cases (session_dir (uuid4 E)) w)
    as [(w1' & Mk' & D1 & _ & _ & Fs1)|(cls & text & Mk')];
    rewrite Mk in Mk'; [|discriminate].
  injection Mk' as <-.
  destruct (guarded_cases E file w1) as (r' & w2' & G' & T2 & _).
  rewrite G in G'. injection G' as _ <-.
  destruct (separate_finally_cases E file w2) as (w3' & Fi' & T3 & _).
  rewrite Fi in Fi'. injection Fi' as <-.
  pose proof (touched_trans _ _ _ _ T2 T3) as T.
  pose proof (touched_is_dir _ _ _ T D1) as D3.
  rewrite (session_dir_single _ Sf) in *.
  set (x := "vocal_remover_" ++ uuid4 E) in *.
  pose proof (get_single_none x (fs w) Fresh) as A.
  destruct Fs1 as [Fs1|Fs1].
  { exfalso. unfold is_dir in D1. rewrite Fs1, Fresh in D1. discriminate. }
  assert (P : put [x] (Dir []) (fs w) = (fs w ++ [(x, Dir [])])%list).
  { unfold put. change (parent [x]) with (@nil string).
    change (name [x]) with x. cbn [alter]. unfold set_entry.
    rewrite A. reflexivity. }
  rewrite Fs1, P in T.
  destruct (touched_last x (Dir []) (fs w) (fs w3) A T) as (v' & F3).
  rewrite cleanup_session_eq, (session_dir_single _ Sf). fold x.
  unfold is_dir in D3.
  destruct (get [x] (fs w3)) as [[c|es]|]; try discriminate.
  rewrite NoFault. cbn [snd with_fs fs]. rewrite F3.
  change (remove [x] (fs w ++ [(x, v')])%list)
    with (remove_entry x (fs w ++ [(x, v')])%list).
  apply remove_entry_last. exact A.
Qed.

Lemma upload_then_cleanup_witness :
  fs (snd (cleanup_session Sample.good_env Sample.sid
             (snd (separate_audio Sample.good_env Sample.song
                     Sample.two_outputs))))
  = fs Sample.two_outputs.
Proof.
  apply (upload_then_cleanup_restores_tree Sample.good_env Sample.good_env
           Sample.song Sample.two_outputs); reflexivity.
Defined.



Lemma separate_finally_log E p w entry :
  In entry (log w) -> In entry (log (snd (separate_finally E p w))).
Proof.
  intro H. rewrite separate_finally_eq.
  destruct (get p (fs w)) as [[c|es]|]; [|cbn [snd logged log]|exact H].
  - destruct (unlink_fault E) as [[cls text]|]; [cbn [snd logged log]|exact H].
    apply in_or_app. left. exact H.
  - apply in_or_app. left. exact H.
Qed.

(** X21.  When the workspace is ready and the body is within the ceiling
    but saving the input fails, the upload ends in 500 "An unexpected
    error occurred: " with the text of the error, logged as an error; the
    engine is not started. *)
Theorem failed_save_is_unexpected_error E file w cls text :
  workspace_ready E file w ->
  too_large file = false ->
  fst (write_bytes E (input_path (uuid4 E) file) (body file)
         (snd (mkdir_exist_ok (session_dir (uuid4 E)) w)))
  = Raise (PyError cls text) ->
  fst (separate_audio E file w)
  = Raise (HTTPException 500 ("An unexpected error occurred: " ++ text))
  /\ procs (snd (separate_audio E file w)) = procs w
  /\ In (ERROR, "Unexpected error during separation: " ++ text)
        (log (snd (separate_audio E file w))).
Proof.
  intros R L W.
  destruct (separate_audio_ready E file w R)
    as (w1 & r & w2 & w3 & Mk & G & Fi & S).
  rewrite S. cbn [fst snd]. rewrite Mk in W. cbn [snd] in W.
  destruct (mkdir_exist_ok_cases (session_dir (uuid4 E)) w)
    as [(w1' & Mk' & _ & P1 & _)|(cls' & text' & Mk')];
    rewrite Mk in Mk'; [|discriminate].
  injection Mk' as <-.
  destruct (separate_finally_cases E file w2) as (w3' & Fi' & _ & P3).
  rewrite Fi in Fi'. injection Fi' as <-.
  pose proof (separate_finally_log E (input_path (uuid4 E) file) w2) as Lg.
  rewrite Fi in Lg. cbn [snd] in Lg.
  rewrite guarded_eq, L in G.
  destruct (input_path_below (uuid4 E) file) as (x & q & I).
  destruct (write_bytes_cases E (session_dir (uuid4 E)) x q (body file) w1)
    as (rw & ww & Wr & _ & _ & Pw & _).
  rewrite I in G, W. rewrite Wr in G, W. cbn [fst] in W. subst rw.
  cbn [separate_handler] in G. unfold bind, logger, raise in G.
  injection G as <- <-.
  split; [reflexivity|]. split.
  - rewrite P3. cbn [procs]. congruence.
  - apply Lg. cbn [log]. apply in_or_app. right. left. reflexivity.
Qed.

Lemma failed_save_witness :
  fst (separate_audio Sample.full_disk_env Sample.song Sample.empty_world)
  = Raise (HTTPException 500
             ("An unexpected error occurred: "
                ++ "[Errno 28] No space left on device: '/tmp/vocal_remover_"
                ++ Sample.sid ++ "/input.mp3'")).
Proof.
  refine (proj1 (failed_save_is_unexpected_error Sample.full_disk_env
                   Sample.song Sample.empty_world "OSError" _ _ eq_refl eq_refl)).
  split; reflexivity.
Defined.
